(** * ExamMaker: the template parser, the item model and the item store

    A shallow embedding of [exammaker/editor.py] ([parse_template]),
    [exammaker/models.py], [exammaker/cli.py] ([item_add]) and
    [exammaker/storage.py], together with the Python string primitives they
    call, followed by the properties of the specification.

    Text is modelled as a list of code points restricted to U+0000..U+00FF
    (type [ascii] read as Latin-1).  Inside that repertoire [strip],
    [splitlines], [lower], [int] and [repr] are the ones of CPython 3. *)

From Stdlib Require Import List Ascii String ZArith Lia Bool DecimalString.

Import ListNotations.

Set Implicit Arguments.

(* ================================================================== *)
(** * Python strings                                                   *)
(* ================================================================== *)

Definition str := list ascii.

(** A source literal. *)
Definition py (s : string) : str := list_ascii_of_string s.

Definition NL : ascii := "010"%char.

Definition code (c : ascii) : N := N_of_ascii c.

Fixpoint str_eqb (a b : str) : bool :=
  match a, b with
  | [], [] => true
  | x :: a', y :: b' => Ascii.eqb x y && str_eqb a' b'
  | _, _ => false
  end.

Definition in_range (lo hi : N) (c : ascii) : bool :=
  (N.leb lo (code c) && N.leb (code c) hi)%bool.

(** [str.isspace] on one character; also the class [\s] of [re] and the set
    removed by [str.strip]. *)
Definition is_space (c : ascii) : bool :=
  in_range 9 13 c || in_range 28 32 c || N.eqb (code c) 133 || N.eqb (code c) 160.

(** The line boundaries of [str.splitlines]. *)
Definition is_linebreak (c : ascii) : bool :=
  in_range 10 13 c || in_range 28 30 c || N.eqb (code c) 133.

Fixpoint dropwhile (p : ascii -> bool) (s : str) : str :=
  match s with
  | [] => []
  | c :: s' => if p c then dropwhile p s' else s
  end.

(** The longest prefix whose characters satisfy [p], and the rest. *)
Fixpoint span (p : ascii -> bool) (s : str) : str * str :=
  match s with
  | [] => ([], [])
  | c :: s' => if p c then let (a, b) := span p s' in (c :: a, b) else ([], s)
  end.

Definition lstrip (s : str) : str := dropwhile is_space s.

Definition rstrip (s : str) : str := rev (dropwhile is_space (rev s)).

Definition strip (s : str) : str := lstrip (rstrip s).

Fixpoint startswith (s prefix : str) {struct prefix} : bool :=
  match prefix, s with
  | [], _ => true
  | p :: prefix', c :: s' => Ascii.eqb c p && startswith s' prefix'
  | _ :: _, [] => false
  end.

(** [sep.join(parts)]. *)
Fixpoint join (sep : str) (parts : list str) : str :=
  match parts with
  | [] => []
  | [p] => p
  | p :: rest => p ++ sep ++ join sep rest
  end.

(** [str.splitlines()]: [cur] is the line being read; a carriage return
    followed by a line feed is one boundary; no empty last line. *)
Fixpoint splitlines_from (cur : str) (s : str) : list str :=
  match s with
  | [] => match cur with [] => [] | _ => [cur] end
  | c :: s' =>
      if N.eqb (code c) 13 then
        match s' with
        | d :: s'' => if N.eqb (code d) 10 then cur :: splitlines_from [] s''
                      else cur :: splitlines_from [] s'
        | [] => cur :: splitlines_from [] s'
        end
      else if is_linebreak c then cur :: splitlines_from [] s'
      else splitlines_from (cur ++ [c]) s'
  end.

Definition splitlines (s : str) : list str := splitlines_from [] s.

(** [str.lower()]: A-Z and the upper-case letters U+00C0..U+00DE (not the
    multiplication sign U+00D7) move up by 32. *)
Definition lower_char (c : ascii) : ascii :=
  if in_range 65 90 c || (in_range 192 222 c && negb (N.eqb (code c) 215))
  then ascii_of_N (code c + 32) else c.

Definition lower (s : str) : str := map lower_char s.

(** ** [int(s)] in base 10 *)

Definition is_digit (c : ascii) : bool := in_range 48 57 c.

Definition is_underscore (c : ascii) : bool := N.eqb (code c) 95.

(** The blanks [int] skips around the number: the C-locale blanks and the
    two non-ASCII blanks of the repertoire.  The separators U+001C..U+001F,
    which [strip] removes, are not among them. *)
Definition is_int_space (c : ascii) : bool :=
  in_range 9 13 c || N.eqb (code c) 32 || N.eqb (code c) 133 || N.eqb (code c) 160.

(** A run of digits and underscores is a number when it starts and ends
    with a digit and has no two underscores in a row. *)
Fixpoint digits_ok (prev_us : bool) (run : str) : bool :=
  match run with
  | [] => negb prev_us
  | c :: r => if is_underscore c then negb prev_us && digits_ok true r
              else digits_ok false r
  end.

Fixpoint digits_value (acc : Z) (run : str) : Z :=
  match run with
  | [] => acc
  | c :: r => if is_underscore c then digits_value acc r
              else digits_value (10 * acc + (Z.of_N (code c) - 48)) r
  end.

(** [None] stands for [ValueError].  The interpreter's configurable limit
    on the number of digits is not part of the model. *)
Definition py_int (s : str) : option Z :=
  let s1 := dropwhile is_int_space s in
  let '(sign, s2) :=
    match s1 with
    | c :: r => if N.eqb (code c) 43 then (1%Z, r)
                else if N.eqb (code c) 45 then ((-1)%Z, r) else (1%Z, s1)
    | [] => (1%Z, s1)
    end in
  let '(run, rest) := span (fun c => is_digit c || is_underscore c) s2 in
  match run with
  | [] => None
  | _ :: _ =>
      if digits_ok true run && forallb is_int_space rest
      then Some (sign * digits_value 0 run)%Z else None
  end.

(** ** [repr(s)] *)

Definition is_printable (c : ascii) : bool :=
  in_range 32 126 c || (in_range 161 255 c && negb (N.eqb (code c) 173)).

Definition hex_digit (n : N) : ascii :=
  if N.ltb n 10 then ascii_of_N (48 + n) else ascii_of_N (87 + n).

Definition QUOTE : ascii := "039"%char.

Definition DQUOTE : ascii := "034"%char.

Definition BACKSLASH : ascii := "092"%char.

Definition has_char (q : ascii) (s : str) : bool := existsb (Ascii.eqb q) s.

Definition repr_char (quote : ascii) (c : ascii) : str :=
  if Ascii.eqb c quote || Ascii.eqb c BACKSLASH then [BACKSLASH; c]
  else if N.eqb (code c) 9 then [BACKSLASH; "t"%char]
  else if N.eqb (code c) 10 then [BACKSLASH; "n"%char]
  else if N.eqb (code c) 13 then [BACKSLASH; "r"%char]
  else if is_printable c then [c]
  else [BACKSLASH; "x"%char; hex_digit (code c / 16); hex_digit (code c mod 16)].

Definition repr (s : str) : str :=
  let quote := if has_char QUOTE s && negb (has_char DQUOTE s) then DQUOTE else QUOTE in
  quote :: flat_map (repr_char quote) s ++ [quote].

(** [needle in hay]. *)
Fixpoint contains (hay needle : str) : bool :=
  startswith hay needle ||
  match hay with
  | [] => false
  | _ :: hay' => contains hay' needle
  end.

(** ** Insertion-ordered dictionaries with [str] keys

    [yaml.dump(..., sort_keys=False)] writes a dict in insertion order, so
    the order of the entries is kept in the model. *)

Definition dict (V : Type) := list (str * V).

(** [d[k] = v]: an existing key keeps its place and takes the new value. *)
Fixpoint dict_set {V} (k : str) (v : V) (d : dict V) : dict V :=
  match d with
  | [] => [(k, v)]
  | (k', v') :: d' => if str_eqb k' k then (k', v) :: d'
                      else (k', v') :: dict_set k v d'
  end.

Fixpoint dict_get {V} (k : str) (d : dict V) : option V :=
  match d with
  | [] => None
  | (k', v') :: d' => if str_eqb k' k then Some v' else dict_get k d'
  end.

Definition keys {V} (d : dict V) : list str := map fst d.

(** Number of entries stored under [k]. *)
Definition entries_for {V} (k : str) (d : dict V) : nat :=
  List.length (filter (fun kv => str_eqb (fst kv) k) d).

(* ================================================================== *)
(** * models.py                                                        *)
(* ================================================================== *)

Inductive Difficulty := EASY | MEDIUM | HARD.

Definition Difficulty_value (d : Difficulty) : str :=
  match d with
  | EASY => py "easy"
  | MEDIUM => py "medium"
  | HARD => py "hard"
  end.

(** [Difficulty(s)], the lookup by value; [None] stands for [ValueError]. *)
Definition Difficulty_of_value (s : str) : option Difficulty :=
  if str_eqb s (py "easy") then Some EASY
  else if str_eqb s (py "medium") then Some MEDIUM
  else if str_eqb s (py "hard") then Some HARD
  else None.

Record Criterion := { description : str; points : Z }.

(** Modelled from the spec: the class [CourseAssignment], which editor.py
    imports from models.py and models.py does not declare.  By the data
    model it pairs a difficulty with an optional topic. *)
Record CourseAssignment := { difficulty : Difficulty; topic : option str }.

Record Item := {
  item_id : str;
  item_body : str;
  item_points : Z;
  item_courses : dict Difficulty;
  item_criteria : list Criterion;
  item_solution : option str
}.

(* ================================================================== *)
(** * editor.py                                                        *)
(* ================================================================== *)

(** The one exception class, [TemplateParseError], by raise site. *)
Inductive TemplateParseError :=
| EmptyBody
| BadCriterionLine (raw : str)
| BadPoints (pts_str : str)
| BadCourseLine (raw : str)
| InvalidDifficulty (diff_str code_ : str).

(** The dash U+2014 of the message literals lies outside the repertoire;
    two hyphens stand for it. *)
Definition EM_DASH : str := py "--".

(** [str(exc)]. *)
Definition message (e : TemplateParseError) : str :=
  match e with
  | EmptyBody =>
      py "Body section is empty " ++ EM_DASH ++
      py " please write the question text between the BODY markers."
  | BadCriterionLine raw =>
      py "Bad criterion line: " ++ repr raw ++ py " " ++ EM_DASH ++ py " " ++
      py "expected format: \criterion{description}{points}"
  | BadPoints pts_str =>
      py "Criterion points must be an integer, got: " ++ repr pts_str
  | BadCourseLine raw =>
      py "Bad course line: " ++ repr raw ++ py " " ++ EM_DASH ++ py " " ++
      py "expected format: \course{course_code}{difficulty}"
  | InvalidDifficulty diff_str c =>
      py "Invalid difficulty " ++ repr diff_str ++ py " for course " ++ repr c ++
      py " " ++ EM_DASH ++ py " must be one of: easy, hard, medium"
  end.

Inductive result (A : Type) :=
| Ok (a : A)
| Raise (e : TemplateParseError).

Arguments Ok {A} a.

Arguments Raise {A} e.

Record ParsedTemplate := {
  body : str;
  criteria : list Criterion;
  solution : option str;
  courses : dict CourseAssignment
}.

Inductive _Section := OUTSIDE | IN_BODY | IN_SOLUTION | IN_CRITERIA | IN_COURSES.

(** ** The two line patterns *)

(** Removes the literal [lit] from the front of [s]. *)
Fixpoint expect (lit s : str) {struct lit} : option str :=
  match lit, s with
  | [], _ => Some s
  | l :: lit', c :: s' => if Ascii.eqb c l then expect lit' s' else None
  | _ :: _, [] => None
  end.

Definition not_rbrace (c : ascii) : bool := negb (Ascii.eqb c "}"%char).

(** One argument in braces, with no closing brace inside: the captured
    group and what follows. *)
Definition brace_group (s : str) : option (str * str) :=
  match expect (py "{") s with
  | None => None
  | Some s1 =>
      let (g, s2) := span not_rbrace s1 in
      match expect (py "}") s2 with
      | None => None
      | Some s3 => Some (g, s3)
      end
  end.

(** [_CRITERION_RE.match(raw)], giving groups 1 and 2.  No alternative of
    the pattern overlaps the next one, so the match is read left to right:
    blanks, the command name, two arguments, blanks up to the end. *)
Definition _CRITERION_RE (raw : str) : option (str * str) :=
  match expect (py "\criterion") (dropwhile is_space raw) with
  | None => None
  | Some s1 =>
      match brace_group s1 with
      | None => None
      | Some (g1, s2) =>
          match brace_group s2 with
          | None => None
          | Some (g2, s3) => if forallb is_space s3 then Some (g1, g2) else None
          end
      end
  end.

(** [_COURSE_RE.match(raw)], giving groups 1, 2 and 3. *)
Definition _COURSE_RE (raw : str) : option (str * str * str) :=
  match expect (py "\course") (dropwhile is_space raw) with
  | None => None
  | Some s1 =>
      match brace_group s1 with
      | None => None
      | Some (g1, s2) =>
          match brace_group s2 with
          | None => None
          | Some (g2, s3) =>
              match brace_group s3 with
              | None => None
              | Some (g3, s4) =>
                  if forallb is_space s4 then Some (g1, g2, g3) else None
              end
          end
      end
  end.

(** ** The line scan *)

Record scan := {
  state : _Section;
  body_lines : list str;
  solution_lines : list str;
  criteria_lines : list str;
  courses_lines : list str
}.

Definition scan_start : scan :=
  {| state := OUTSIDE; body_lines := []; solution_lines := [];
     criteria_lines := []; courses_lines := [] |}.

Definition set_state (s : _Section) (st : scan) : scan :=
  {| state := s; body_lines := body_lines st; solution_lines := solution_lines st;
     criteria_lines := criteria_lines st; courses_lines := courses_lines st |}.

(** The eight marker tests at the head of the loop body: the section a
    marker line switches to. *)
Definition marker (stripped : str) : option _Section :=
  if str_eqb stripped (py "% @@BEGIN_BODY") then Some IN_BODY
  else if str_eqb stripped (py "% @@END_BODY") then Some OUTSIDE
  else if str_eqb stripped (py "% @@BEGIN_SOLUTION") then Some IN_SOLUTION
  else if str_eqb stripped (py "% @@END_SOLUTION") then Some OUTSIDE
  else if str_eqb stripped (py "% @@BEGIN_CRITERIA") then Some IN_CRITERIA
  else if str_eqb stripped (py "% @@END_CRITERIA") then Some OUTSIDE
  else if str_eqb stripped (py "% @@BEGIN_COURSES") then Some IN_COURSES
  else if str_eqb stripped (py "% @@END_COURSES") then Some OUTSIDE
  else None.

(** [stripped and not stripped.startswith("%")]. *)
Definition candidate (stripped : str) : bool :=
  match stripped with
  | [] => false
  | _ :: _ => negb (startswith stripped (py "%"))
  end.

(** One turn of the loop over [content.splitlines()]. *)
Definition scan_line (st : scan) (line : str) : scan :=
  let stripped := strip line in
  match marker stripped with
  | Some s => set_state s st
  | None =>
      match state st with
      | OUTSIDE => st
      | IN_BODY =>
          {| state := state st; body_lines := body_lines st ++ [line];
             solution_lines := solution_lines st;
             criteria_lines := criteria_lines st;
             courses_lines := courses_lines st |}
      | IN_SOLUTION =>
          if candidate stripped then
            {| state := state st; body_lines := body_lines st;
               solution_lines := solution_lines st ++ [stripped];
               criteria_lines := criteria_lines st;
               courses_lines := courses_lines st |}
          else st
      | IN_CRITERIA =>
          if candidate stripped then
            {| state := state st; body_lines := body_lines st;
               solution_lines := solution_lines st;
               criteria_lines := criteria_lines st ++ [stripped];
               courses_lines := courses_lines st |}
          else st
      | IN_COURSES =>
          if candidate stripped then
            {| state := state st; body_lines := body_lines st;
               solution_lines := solution_lines st;
               criteria_lines := criteria_lines st;
               courses_lines := courses_lines st ++ [stripped] |}
          else st
      end
  end.

Definition scan_lines (st : scan) (lines : list str) : scan :=
  fold_left scan_line lines st.

Definition scan_template (content : str) : scan :=
  scan_lines scan_start (splitlines content).

(** ** Criteria and courses *)

(** The body of the loop over [criteria_lines]. *)
Definition criterion_of_line (raw : str) : result Criterion :=
  match _CRITERION_RE raw with
  | None => Raise (BadCriterionLine raw)
  | Some (g1, g2) =>
      let desc := strip g1 in
      let pts_str := strip g2 in
      match py_int pts_str with
      | None => Raise (BadPoints pts_str)
      | Some pts => Ok {| description := desc; points := pts |}
      end
  end.

Fixpoint criteria_loop (acc : list Criterion) (raws : list str)
  : result (list Criterion) :=
  match raws with
  | [] => Ok acc
  | raw :: rest =>
      match criterion_of_line raw with
      | Raise e => Raise e
      | Ok c => criteria_loop (acc ++ [c]) rest
      end
  end.

(** [s or None]. *)
Definition or_None (s : str) : option str :=
  match s with
  | [] => None
  | _ :: _ => Some s
  end.

(** The body of the loop over [courses_lines]: the key and the value of the
    assignment [courses[code] = ...]. *)
Definition course_of_line (raw : str) : result (str * CourseAssignment) :=
  match _COURSE_RE raw with
  | None => Raise (BadCourseLine raw)
  | Some (g1, g2, g3) =>
      let c := strip g1 in
      let diff_str := lower (strip g2) in
      let topic_str := or_None (strip g3) in
      match Difficulty_of_value diff_str with
      | None => Raise (InvalidDifficulty diff_str c)
      | Some d => Ok (c, {| difficulty := d; topic := topic_str |})
      end
  end.

Fixpoint courses_loop (acc : dict CourseAssignment) (raws : list str)
  : result (dict CourseAssignment) :=
  match raws with
  | [] => Ok acc
  | raw :: rest =>
      match course_of_line raw with
      | Raise e => Raise e
      | Ok (c, a) => courses_loop (dict_set c a acc) rest
      end
  end.

Definition parse_template (content : str) : result ParsedTemplate :=
  let st := scan_template content in
  let body_ := strip (join [NL] (body_lines st)) in
  match body_ with
  | [] => Raise EmptyBody
  | _ :: _ =>
      let solution_text := or_None (strip (join [NL] (solution_lines st))) in
      match criteria_loop [] (criteria_lines st) with
      | Raise e => Raise e
      | Ok criteria_ =>
          match courses_loop [] (courses_lines st) with
          | Raise e => Raise e
          | Ok courses_ =>
              Ok {| body := body_; criteria := criteria_;
                    solution := solution_text; courses := courses_ |}
          end
      end
  end.

(* ================================================================== *)
(** * models.py: validation of an [Item]                               *)
(* ================================================================== *)

(** The objects that reach a field declared [Difficulty]. *)
Inductive value :=
| VStr (s : str)
| VDifficulty (d : Difficulty)
| VCourseAssignment (a : CourseAssignment).

(** Validation of a field declared [Difficulty]: a member of the enumeration
    is kept, a string is looked up by value, any other object is refused
    ([None] stands for [ValidationError]). *)
Definition validate_Difficulty (v : value) : option Difficulty :=
  match v with
  | VDifficulty d => Some d
  | VStr s => Difficulty_of_value s
  | VCourseAssignment _ => None
  end.

(** Validation of the values of a dict, one by one. *)
Fixpoint validate_dict {A B} (f : A -> option B) (d : dict A) : option (dict B) :=
  match d with
  | [] => Some []
  | (k, v) :: d' =>
      match f v, validate_dict f d' with
      | Some x, Some r => Some ((k, x) :: r)
      | _, _ => None
      end
  end.

(** Validation of the field [courses: dict[str, Difficulty]]. *)
Definition validate_courses (d : dict value) : option (dict Difficulty) :=
  validate_dict validate_Difficulty d.

(** [Item(body=..., points=..., courses=..., criteria=..., solution=...)];
    [fresh_id] is the value drawn by the default factory of [id]. *)
Definition Item_new (fresh_id body_ : str) (points_ : Z) (courses_ : dict value)
    (criteria_ : list Criterion) (solution_ : option str) : option Item :=
  match validate_courses courses_ with
  | None => None
  | Some cs =>
      Some {| item_id := fresh_id; item_body := body_; item_points := points_;
              item_courses := cs; item_criteria := criteria_;
              item_solution := solution_ |}
  end.

(* ================================================================== *)
(** * cli.py                                                           *)
(* ================================================================== *)

(** [sum(c.points for c in criteria)]. *)
Definition sum_points (cs : list Criterion) : Z :=
  fold_left (fun acc c => (acc + points c)%Z) cs 0%Z.

(** The record [item_add] builds from the parsed template. *)
Definition new_item (fresh_id : str) (parsed : ParsedTemplate) : option Item :=
  let points_ := sum_points (criteria parsed) in
  Item_new fresh_id (body parsed) points_
    (map (fun kv => (fst kv, VCourseAssignment (snd kv))) (courses parsed))
    (criteria parsed) (solution parsed).

(** How [item_add] ends: with the record, with the message of a parse
    error, or with the validation error of [Item]. *)
Inductive outcome (A : Type) :=
| Done (a : A)
| ClickException (msg : str)
| ValidationError.

Arguments Done {A} a.

Arguments ClickException {A} msg.

Arguments ValidationError {A}.

(** [item_add] from the text read back from the editor up to the record it
    hands to [save_item]. *)
Definition item_add_record (fresh_id content : str) : outcome Item :=
  match parse_template content with
  | Raise exc => ClickException (message exc)
  | Ok parsed =>
      match new_item fresh_id parsed with
      | None => ValidationError
      | Some it => Done it
      end
  end.

(* ================================================================== *)
(** * storage.py                                                       *)
(* ================================================================== *)

(** The documents [yaml.dump] is given and [yaml.safe_load] returns. *)
#[warnings="-register-all"] Inductive node :=
| Null
| Int (z : Z)
| Str (s : str)
| Seq (l : list node)
| Map (l : list (str * node)).

Definition dump_Criterion (c : Criterion) : node :=
  Map [(py "description", Str (description c)); (py "points", Int (points c))].

Definition dump_optional (o : option str) : node :=
  match o with
  | None => Null
  | Some s => Str s
  end.

(** [item.model_dump(mode="json")]: every field, in declaration order. *)
Definition model_dump (it : Item) : node :=
  Map [ (py "id", Str (item_id it));
        (py "body", Str (item_body it));
        (py "points", Int (item_points it));
        (py "courses",
         Map (map (fun kv => (fst kv, Str (Difficulty_value (snd kv)))) (item_courses it)));
        (py "criteria", Seq (map dump_Criterion (item_criteria it)));
        (py "solution", dump_optional (item_solution it)) ].

(** Field validators of [model_validate].  The conversions pydantic applies
    to a value of another type (a numeric string given for an [int]) are
    refused here; the documents [save_item] writes contain none. *)
Definition validate_str (n : node) : option str :=
  match n with
  | Str s => Some s
  | _ => None
  end.

Definition validate_int (n : node) : option Z :=
  match n with
  | Int z => Some z
  | _ => None
  end.

Definition validate_optional_str (n : node) : option (option str) :=
  match n with
  | Null => Some None
  | Str s => Some (Some s)
  | _ => None
  end.

Definition validate_Criterion (n : node) : option Criterion :=
  match n with
  | Map fields =>
      match dict_get (py "description") fields, dict_get (py "points") fields with
      | Some d, Some p =>
          match validate_str d, validate_int p with
          | Some d', Some p' => Some {| description := d'; points := p' |}
          | _, _ => None
          end
      | _, _ => None
      end
  | _ => None
  end.

Fixpoint validate_list {A} (f : node -> option A) (l : list node) : option (list A) :=
  match l with
  | [] => Some []
  | n :: l' =>
      match f n, validate_list f l' with
      | Some a, Some r => Some (a :: r)
      | _, _ => None
      end
  end.

Definition validate_criteria (n : node) : option (list Criterion) :=
  match n with
  | Seq l => validate_list validate_Criterion l
  | _ => None
  end.

Definition validate_Difficulty_node (n : node) : option Difficulty :=
  match n with
  | Str s => validate_Difficulty (VStr s)
  | _ => None
  end.

Definition validate_courses_node (n : node) : option (dict Difficulty) :=
  match n with
  | Map l => validate_dict validate_Difficulty_node l
  | _ => None
  end.

(** A field with a default: the default when the key is missing. *)
Definition field_or {A} (k : str) (fields : dict node) (f : node -> option A)
    (default : A) : option A :=
  match dict_get k fields with
  | None => Some default
  | Some n => f n
  end.

(** [Item.model_validate(data)]. *)
Definition model_validate (fresh_id : str) (data : node) : option Item :=
  match data with
  | Map fields =>
      match field_or (py "id") fields validate_str fresh_id,
            dict_get (py "body") fields,
            dict_get (py "points") fields,
            field_or (py "courses") fields validate_courses_node [],
            field_or (py "criteria") fields validate_criteria [],
            field_or (py "solution") fields validate_optional_str None with
      | Some i, Some b, Some p, Some cs, Some cr, Some so =>
          match validate_str b, validate_int p with
          | Some b', Some p' =>
              Some {| item_id := i; item_body := b'; item_points := p';
                      item_courses := cs; item_criteria := cr;
                      item_solution := so |}
          | _, _ => None
          end
      | _, _, _, _, _, _ => None
      end
  | _ => None
  end.

Section Storage.

(** The collaborators of storage.py: the YAML codec over file contents
    [text], and paths with their join.  Writing a file always succeeds in
    the model. *)
Variable text : Type.
Variable yaml_dump : node -> text.
Variable yaml_safe_load : text -> option node.
Variable path : Type.
Variable path_eq_dec : forall p q : path, {p = q} + {p <> q}.
Variable joinpath : path -> str -> path.

Definition files := path -> option text.

Definition write_text (p : path) (t : text) (fs : files) : files :=
  fun q => if path_eq_dec q p then Some t else fs q.

Definition save_item (it : Item) (directory : path) (fs : files) : path * files :=
  let p := joinpath directory (item_id it ++ py ".yaml") in
  (p, write_text p (yaml_dump (model_dump it)) fs).

Definition load_item (fresh_id : str) (p : path) (fs : files) : option Item :=
  match fs p with
  | None => None
  | Some t =>
      match yaml_safe_load t with
      | None => None
      | Some data => model_validate fresh_id data
      end
  end.

End Storage.

(* ================================================================== *)
(** * editor.py: the template, the editor                              *)
(* ================================================================== *)

Definition ITEM_TEMPLATE : str := py "\documentclass[12pt]{article}
\usepackage[a4paper, margin=2cm]{geometry}
\usepackage[utf8]{inputenc}
\usepackage{amsmath, amssymb}
\usepackage{parskip}

% Renders one grading criterion. Usage: \criterion{description}{points}
\newcommand{\criterion}[2]{\noindent\textbullet~#1\hfill\textit{(#2~pts)}\par\smallskip}

% Renders one course assignment. Usage: \course{code}{difficulty}{topic}
\newcommand{\course}[3]{\noindent\textbullet~\texttt{#1}\quad\textit{#2}~\textit{#3}\par\smallskip}

\begin{document}

\noindent\textbf{Question}
\medskip

% @@BEGIN_BODY
" ++ py "Write your question body here in \LaTeX{}.
% @@END_BODY

\bigskip\hrule\bigskip

\noindent\textbf{Solution}
\medskip

% @@BEGIN_SOLUTION
% Write the solution here in \LaTeX{}. Lines starting with % are ignored.
% @@END_SOLUTION

\bigskip\hrule\bigskip

\noindent\textbf{Grading Criteria}
\medskip

% @@BEGIN_CRITERIA
% Add criteria using \criterion{description}{points}:
% @@END_CRITERIA

\bigskip\hrule\bigskip

\noindent\textbf{Courses}
\medskip

% @@BEGIN_COURSES
% Add courses using \course{course\_code}{difficulty}{topic}:
% Difficulty: easy | medium | hard. Topic is optional (leave \{\} empty).
% @@END_COURSES

\end{document}
".

Definition _GUI_EDITORS : list str :=
  [py "codium"; py "code"; py "code-insiders"; py "subl"].

(** [str.split()]: the runs of characters between blanks; [cur] is the run
    being read. *)
Fixpoint split_from (cur : str) (s : str) : list str :=
  match s with
  | [] => match cur with [] => [] | _ :: _ => [cur] end
  | c :: s' =>
      if is_space c then
        match cur with
        | [] => split_from [] s'
        | _ :: _ => cur :: split_from [] s'
        end
      else split_from (cur ++ [c]) s'
  end.

Definition split (s : str) : list str := split_from [] s.

(** [str(n)] for an integer. *)
Definition str_of_int (n : Z) : str :=
  py (DecimalString.NilZero.string_of_int (Z.to_int n)).

(** How [find_editor] ends: with the command, with [ClickException], or
    with the [IndexError] of [parts[0]]. *)
Inductive editor_found :=
| Command (argv : list str)
| NoEditor (msg : str)
| IndexError.

(** How the process started by [subprocess.run] ends. *)
Inductive process :=
| Exit (returncode : Z)
| FileNotFoundError.

Section Editor.

(** The environment of [find_editor]: [shutil.which] and [os.environ]. *)
Variable which : str -> option str.
Variable environ : str -> option str.

(** Truth of [shutil.which(name)]. *)
Definition on_path (name : str) : bool :=
  match which name with
  | Some (_ :: _) => true
  | _ => false
  end.

(** The loop over [_GUI_EDITORS]; [None] when it falls through. *)
Fixpoint gui_loop (names : list str) : option (list str) :=
  match names with
  | [] => None
  | name :: rest =>
      if on_path name then Some [name; py "--new-window"; py "--wait"]
      else gui_loop rest
  end.

(** The loop over the variables [VISUAL] and [EDITOR]; [None] when it falls
    through. *)
Fixpoint env_loop (vars : list str) : option editor_found :=
  match vars with
  | [] => None
  | env_var :: rest =>
      let val := strip (match environ env_var with Some v => v | None => [] end) in
      match val with
      | [] => env_loop rest
      | _ :: _ =>
          match split val with
          | [] => Some IndexError
          | p0 :: ps => if on_path p0 then Some (Command (p0 :: ps)) else env_loop rest
          end
      end
  end.

Definition find_editor : editor_found :=
  match gui_loop _GUI_EDITORS with
  | Some cmd => Command cmd
  | None =>
      match env_loop [py "VISUAL"; py "EDITOR"] with
      | Some r => r
      | None =>
          if on_path (py "vi") then Command [py "vi"]
          else NoEditor (py "No editor found. Install VS Codium or VS Code, or set the EDITOR or VISUAL environment variable.")
      end
  end.

End Editor.

(* ================================================================== *)
(** * editor.py, cli.py, storage.py: the commands on the file system   *)
(* ================================================================== *)

(** What a command raises. *)
Inductive raised :=
| RaisedClick (msg : str)
| RaisedValidation
| RaisedFileNotFound
| RaisedIndex.

Section Commands.

(** The collaborators: paths, the YAML codec over [str], the environment
    of [find_editor], and [subprocess.run], which may change the files. *)
Variable path : Type.
Variable path_eq_dec : forall p q : path, {p = q} + {p <> q}.
Variable joinpath : path -> str -> path.
Variable Path : str -> path.
Variable path_str : path -> str.
Variable yaml_dump : node -> str.
Variable yaml_safe_load : str -> option node.
Variable which : str -> option str.
Variable environ : str -> option str.
Variable run : list str -> files str path -> files str path * process.

(** [path.unlink(missing_ok=True)]. *)
Definition unlink (p : path) (fs : files str path) : files str path :=
  fun q => if path_eq_dec q p then None else fs q.

(** [open_editor(path)]: the files as the editor left them, and what was
    raised, if anything. *)
Definition open_editor (p : path) (fs : files str path)
  : files str path * option raised :=
  match find_editor which environ with
  | NoEditor msg => (fs, Some (RaisedClick msg))
  | IndexError => (fs, Some RaisedIndex)
  | Command cmd0 =>
      let cmd := cmd0 ++ [path_str p] in
      match run cmd fs with
      | (fs', Exit 0) => (fs', None)
      | (fs', Exit rc) =>
          (fs', Some (RaisedClick
                        (py "Editor exited with code " ++ str_of_int rc ++ py ".")))
      | (fs', FileNotFoundError) =>
          (fs', Some (RaisedClick
                        (py "Editor executable not found: " ++ repr (hd [] cmd))))
      end
  end.

(** [item_add(items_dir)]; [tmp_path] is the name of the temporary file,
    [fresh_id] the id drawn for the item.  The result is the files at the
    end, and the text echoed or what was raised. *)
Definition item_add (items_dir : str) (tmp_path : path) (fresh_id : str)
    (fs : files str path) : files str path * (str + raised) :=
  let fs1 := write_text path_eq_dec tmp_path ITEM_TEMPLATE fs in
  match open_editor tmp_path fs1 with
  | (fs2, Some e) => (unlink tmp_path fs2, inr e)
  | (fs2, None) =>
      match fs2 tmp_path with
      | None => (unlink tmp_path fs2, inr RaisedFileNotFound)
      | Some content =>
          match parse_template content with
          | Raise exc => (unlink tmp_path fs2, inr (RaisedClick (message exc)))
          | Ok parsed =>
              let fs3 := unlink tmp_path fs2 in
              match new_item fresh_id parsed with
              | None => (fs3, inr RaisedValidation)
              | Some new_item_ =>
                  let (out_path, fs4) :=
                    save_item yaml_dump path_eq_dec joinpath new_item_
                              (Path items_dir) fs3 in
                  (fs4, inl (py "Saved: " ++ path_str out_path))
              end
          end
      end
  end.

(** [sorted(directory.glob("*.yaml"))], from the listing of the directory. *)
Variable sorted_yaml : path -> files str path -> list path.

(** The list comprehension of [load_all_items]: the first file that does
    not load ends it.  [fresh] gives the id drawn while a file is loaded. *)
Fixpoint load_each (fresh : path -> str) (ps : list path) (fs : files str path)
  : option (list Item) :=
  match ps with
  | [] => Some []
  | p :: rest =>
      match load_item yaml_safe_load (fresh p) p fs with
      | None => None
      | Some it =>
          match load_each fresh rest fs with
          | None => None
          | Some its => Some (it :: its)
          end
      end
  end.

Definition load_all_items (fresh : path -> str) (directory : path)
    (fs : files str path) : option (list Item) :=
  load_each fresh (sorted_yaml directory fs) fs.

End Commands.

(* ================================================================== *)
(** * Vocabulary of the properties                                     *)
(* ================================================================== *)

(** A string with no blank at either end. *)
Definition trimmed (s : str) : Prop :=
  dropwhile is_space s = s /\ dropwhile is_space (rev s) = rev s.

(** The eight marker lines. *)
Definition markers : list str :=
  [ py "% @@BEGIN_BODY"; py "% @@END_BODY";
    py "% @@BEGIN_SOLUTION"; py "% @@END_SOLUTION";
    py "% @@BEGIN_CRITERIA"; py "% @@END_CRITERIA";
    py "% @@BEGIN_COURSES"; py "% @@END_COURSES" ].

(** A line the scan reads as a marker. *)
Definition is_marker (line : str) : Prop := In (strip line) markers.

(** What a run of lines without markers adds to each list, by section. *)
Definition filtered (region : list str) : list str :=
  filter candidate (map strip region).

Definition kept_body (s : _Section) (region : list str) : list str :=
  match s with IN_BODY => region | _ => [] end.

Definition kept_solution (s : _Section) (region : list str) : list str :=
  match s with IN_SOLUTION => filtered region | _ => [] end.

Definition kept_criteria (s : _Section) (region : list str) : list str :=
  match s with IN_CRITERIA => filtered region | _ => [] end.

Definition kept_courses (s : _Section) (region : list str) : list str :=
  match s with IN_COURSES => filtered region | _ => [] end.

(** The lists only grow: whatever was captured stays. *)
Definition extends (st st' : scan) : Prop :=
  (exists x, body_lines st' = body_lines st ++ x) /\
  (exists x, solution_lines st' = solution_lines st ++ x) /\
  (exists x, criteria_lines st' = criteria_lines st ++ x) /\
  (exists x, courses_lines st' = courses_lines st ++ x).

(** No captured line is a marker; the filtered lists hold trimmed candidate
    lines. *)
Definition kept_line (l : str) : Prop :=
  trimmed l /\ candidate l = true /\ ~ is_marker l.

(** The invariant of the scan. *)
Definition clean (st : scan) : Prop :=
  Forall (fun l => ~ is_marker l) (body_lines st) /\
  Forall kept_line (solution_lines st) /\
  Forall kept_line (criteria_lines st) /\
  Forall kept_line (courses_lines st).

(** The characters of the digit run of [int]. *)
Definition is_numeral_char (c : ascii) : bool := is_digit c || is_underscore c.

(** The text [\criterion{D}{P}]. *)
Definition criterion_line (D P : str) : str :=
  py "\criterion" ++ py "{" ++ D ++ py "}" ++ py "{" ++ P ++ py "}".

(** The text [\course{C}{Diff}{T}]. *)
Definition course_line (C Diff T : str) : str :=
  py "\course" ++ py "{" ++ C ++ py "}" ++ py "{" ++ Diff ++ py "}" ++
  py "{" ++ T ++ py "}".

(** A text that fits in one argument of the patterns. *)
Definition no_rbrace (s : str) : Prop := forallb not_rbrace s = true.

(** No key is stored twice. *)
Definition unique {V} (d : dict V) : Prop := forall k, entries_for k d <= 1.

(** The assignments of a run of entries, first to last. *)
Definition set_all {V} (entries : list (str * V)) (d : dict V) : dict V :=
  fold_left (fun acc e => dict_set (fst e) (snd e) acc) entries d.

(** A string [repr] only puts between quotes: printable, without a
    backslash, and not holding both kinds of quote. *)
Definition verbatim (s : str) : bool :=
  forallb (fun c => is_printable c && negb (Ascii.eqb c BACKSLASH)) s &&
  negb (has_char QUOTE s && has_char DQUOTE s).

(** A criteria line as its description [D], its points text [P] and the
    integer [P] denotes. *)
Definition arg_line (a : str * str * Z) : str :=
  criterion_line (fst (fst a)) (snd (fst a)).

Definition arg_ok (a : str * str * Z) : Prop :=
  no_rbrace (fst (fst a)) /\ py_int (snd (fst a)) = Some (snd a).

Definition arg_criterion (a : str * str * Z) : Criterion :=
  {| description := strip (fst (fst a)); points := snd a |}.

(** A line that assigns no entry to the key [k]. *)
Definition other_code (k : str) (raw : str) : Prop :=
  forall c a, course_of_line raw = Ok (c, a) -> c <> k.

(** A line the course loop accepts. *)
Definition valid_course (raw : str) : Prop :=
  exists e, course_of_line raw = Ok e.

(* ================================================================== *)
(** * Templates and items used as examples                             *)
(* ================================================================== *)

(** A body of blanks, with criteria and courses that are ill-formed. *)
Definition blank_body_template : str := py "\begin{document}
% @@BEGIN_BODY
" ++ py "   " ++ [NL] ++ py "
% @@END_BODY
% @@BEGIN_SOLUTION
% @@END_SOLUTION
% @@BEGIN_CRITERIA
No backslash criterion here
\criterion{Good answer}{four}
% @@END_CRITERIA
% @@BEGIN_COURSES
\course{CS101}{easy}
% @@END_COURSES
".

(** A body with an indented line, an empty line and a comment line. *)
Definition commented_body_template : str := py "preamble
% @@BEGIN_BODY
  First line.

% a comment kept in the body
    indented  text

% @@END_BODY
% @@BEGIN_CRITERIA
\criterion{Correct}{4}
% @@END_CRITERIA
".

(** The solution opened inside the body. *)
Definition nested_marker_template : str := py "% @@BEGIN_BODY
Question text.
% @@BEGIN_SOLUTION
The answer.
% @@END_BODY
% @@END_SOLUTION
".

(** Two body regions. *)
Definition twice_body_template : str := py "% @@BEGIN_BODY
first
% @@END_BODY
% @@BEGIN_BODY
second
% @@END_BODY
".

(** Criteria among blank and comment lines. *)
Definition criteria_template : str := py "% @@BEGIN_BODY
Solve $x^2=4$.
% @@END_BODY
% @@BEGIN_CRITERIA
% Add criteria using \criterion{description}{points}:

\criterion{Correct}{4}
   \criterion{  Good answer  }{ +1_0 }
% \criterion{Commented out}{3}
\criterion{Penalty}{-2}
% @@END_CRITERIA
".

(** A criterion with braces inside its description. *)
Definition nested_braces_template : str := py "% @@BEGIN_BODY
Give the ratio.
% @@END_BODY
% @@BEGIN_CRITERIA
\criterion{$\frac{1}{2}$}{3}
% @@END_CRITERIA
".

(** A criterion whose points are no integer. *)
Definition fraction_points_template : str := py "% @@BEGIN_BODY
Give the ratio.
% @@END_BODY
% @@BEGIN_CRITERIA
\criterion{Half marks}{1\over 2}
% @@END_CRITERIA
".

(** A valid criterion followed by two that are not. *)
Definition bad_second_criterion_template : str := py "% @@BEGIN_BODY
Solve $x^2=4$.
% @@END_BODY
% @@BEGIN_CRITERIA
\criterion{Correct}{4}
No backslash criterion here
\criterion{Good answer}{four}
% @@END_CRITERIA
".

(** The same course code on two lines. *)
Definition duplicate_course_template : str := py "% @@BEGIN_BODY
Solve $x^2=4$.
% @@END_BODY
% @@BEGIN_COURSES
\course{A}{easy}{X}
\course{A}{hard}{Y}
% @@END_COURSES
".

(** Courses with blanks inside the braces and upper-case difficulties. *)
Definition courses_template : str := py "% @@BEGIN_BODY
Solve $x^2=4$.
% @@END_BODY
% @@BEGIN_COURSES
% Difficulty: easy | medium | hard.
\course{ PHY200 }{hard}{Mechanics}
   \course{  CS101  }{  MeDiuM }{  Week 3  }
\course{MA100}{EASY}{ }
% @@END_COURSES
".

(** The scenario of the specification. *)
Definition end_to_end_template : str := py "\begin{document}

% @@BEGIN_BODY
Solve $x^2=4$.
% @@END_BODY

% @@BEGIN_SOLUTION
% @@END_SOLUTION

% @@BEGIN_CRITERIA
\criterion{Correct}{4}
\criterion{Clear}{6}
% @@END_CRITERIA

% @@BEGIN_COURSES
\course{CS101}{easy}{Algebra}
% @@END_COURSES

\end{document}
".

(** An item, and a file system whose paths are strings and whose files
    hold the documents themselves. *)
Definition stored_item : Item :=
  {| item_id := py "3f9a1c07";
     item_body := py "Explain \textbf{dynamic programming}.";
     item_points := 10;
     item_courses := [(py "CS201", MEDIUM); (py "CS301", EASY)];
     item_criteria := [ {| description := py "Correctly defines DP"; points := 4 |};
                        {| description := py "Provides a valid example"; points := 6 |} ];
     item_solution := None |}.

Definition str_eq_dec : forall p q : str, {p = q} + {p <> q} :=
  list_eq_dec ascii_dec.

Definition slash_join (directory name : str) : str := directory ++ py "/" ++ name.

(* ================================================================== *)
(** * Vocabulary and examples of the further properties                *)
(* ================================================================== *)

(** The text [\course{C}{D}] of the form with two arguments. *)
Definition course_line2 (C D : str) : str :=
  py "\course" ++ py "{" ++ C ++ py "}" ++ py "{" ++ D ++ py "}".

(** A line the criteria loop accepts. *)
Definition valid_criterion (raw : str) : Prop :=
  exists c, criterion_of_line raw = Ok c.

(** All blanks. *)
Definition blank (s : str) : Prop := forallb is_space s = true.

(** A course with a difficulty that is not one. *)
Definition invalid_difficulty_template : str := py "% @@BEGIN_BODY
A question.
% @@END_BODY
% @@BEGIN_COURSES
\course{MA100}{easy}{}
\course{ CS101 }{ IMPOSSIBLE }{}
% @@END_COURSES
".

(** An invalid course placed before an invalid criterion. *)
Definition two_errors_template : str := py "% @@BEGIN_BODY
A question.
% @@END_BODY
% @@BEGIN_COURSES
\course{CS101}{impossible}{}
% @@END_COURSES
% @@BEGIN_CRITERIA
\criterion{Good answer}{four}
% @@END_CRITERIA
".

(** Two lines that differ at most by the blanks at their ends. *)
Definition same_stripped (x y : str) : Prop := strip x = strip y.

(** A line that does not open the body. *)
Definition not_begin_body (l : str) : Prop := marker (strip l) <> Some IN_BODY.

(** A template indented outside its body. *)
Definition indented_template : str := py "   % @@BEGIN_BODY
  Kept as it is.
      % @@END_BODY
    % @@BEGIN_CRITERIA
      \criterion{Correct}{4}
  % @@END_CRITERIA
".

(** The same template without the indentation outside the body. *)
Definition flush_template : str := py "% @@BEGIN_BODY
  Kept as it is.
% @@END_BODY
% @@BEGIN_CRITERIA
\criterion{Correct}{4}
% @@END_CRITERIA
".

(** A template with text around and between its sections. *)
Definition wrapped_template : str := py "\documentclass{article}
% @@BEGIN_BODY
A question.
% @@END_BODY
\bigskip
\criterion{Not in a section}{1}
% @@BEGIN_SOLUTION
  First step.

% a comment
Second step.
% @@END_SOLUTION
\end{document}
".

(** The same template without that text. *)
Definition bare_template : str := py "\documentclass{article}
% @@BEGIN_BODY
A question.
% @@END_BODY
% @@BEGIN_SOLUTION
  First step.

% a comment
Second step.
% @@END_SOLUTION
\end{document}
".

(** The lines of [ITEM_TEMPLATE], and [count] of them from line [from]. *)
Definition template_lines : list str := splitlines ITEM_TEMPLATE.

Definition template_part (from count : nat) : list str :=
  firstn count (skipn from template_lines).

(** The template with the lines between its four pairs of markers replaced
    by [B], [S], [K] and [C]. *)
Definition edited_template (B S K C : list str) : list str :=
  template_part 0 18 ++ B ++ template_part 19 8 ++ S ++ template_part 28 8 ++
  K ++ template_part 37 8 ++ C ++ skipn 47 template_lines.

(** The value of an environment variable names a program on the path:
    [find_editor] returns it when no editor before it was found. *)
Definition usable (which environ : str -> option str) (env_var : str) : bool :=
  match split (strip (match environ env_var with Some v => v | None => [] end)) with
  | [] => false
  | p0 :: _ => on_path which p0
  end.

(** The command [find_editor] makes of an environment variable. *)
Definition env_command (environ : str -> option str) (env_var : str) : list str :=
  split (strip (match environ env_var with Some v => v | None => [] end)).

(** An environment with [vim] and [code] installed and [EDITOR] set. *)
Definition which_vim_code (name : str) : option str :=
  if str_eqb name (py "vim") then Some (py "/usr/bin/vim")
  else if str_eqb name (py "code") then Some (py "/usr/bin/code")
  else None.

Definition environ_editor (env_var : str) : option str :=
  if str_eqb env_var (py "EDITOR") then Some (py "  vim  -u NONE ")
  else if str_eqb env_var (py "VISUAL") then Some (py "emacs")
  else None.

(** An environment with only [vim]. *)
Definition which_vim (name : str) : option str :=
  if str_eqb name (py "vim") then Some (py "/usr/bin/vim") else None.

(** An editor process that leaves the files as they are, and one that
    writes [content] to the file named last on its command line; paths are
    strings here. *)
Definition run_keeps (cmd : list str) (fs : files str str) : files str str * process :=
  (fs, Exit 0).

Definition run_writes (content : str) (cmd : list str) (fs : files str str)
  : files str str * process :=
  (write_text str_eq_dec (last cmd []) content fs, Exit 0).

(** A process that ends with code 1 after writing [content]. *)
Definition run_fails (content : str) (cmd : list str) (fs : files str str)
  : files str str * process :=
  (write_text str_eq_dec (last cmd []) content fs, Exit 1).

(** A codec used where the text of the documents does not matter. *)
Definition dump_any (n : node) : str := py "document".

(** A directory with one file. *)
Definition one_file : files str str :=
  write_text str_eq_dec (py "items/0a1b2c3d.yaml") (py "document") (fun _ => None).

(** The item [item_add] makes of the template left as it is. *)
Definition placeholder_item : Item :=
  {| item_id := py "3f9a1c07";
     item_body := py "Write your question body here in \LaTeX{}.";
     item_points := 0; item_courses := []; item_criteria := [];
     item_solution := None |}.

(** A second item, with the id of [stored_item]. *)
Definition replacing_item : Item :=
  {| item_id := py "3f9a1c07"; item_body := py "Another question.";
     item_points := 0; item_courses := []; item_criteria := [];
     item_solution := Some (py "Its answer.") |}.

(** No program at all on the path. *)
Definition which_nothing (name : str) : option str := None.

(** The name of a temporary file. *)
Definition tmp_tex : str := py "/tmp/tmpk3v9x2.tex".

(* ================================================================== *)
(** * Properties of the string primitives                              *)
(* ================================================================== *)

Lemma str_eqb_eq (a b : str) : str_eqb a b = true <-> a = b.
Proof.
  revert b; induction a as [|x a IH]; intros [|y b]; simpl; split; intro H;
    try reflexivity; try discriminate.
  - apply andb_true_iff in H as [Hx Hr].
    apply Ascii.eqb_eq in Hx. apply IH in Hr. now subst.
  - inversion H; subst. rewrite Ascii.eqb_refl. simpl. now apply IH.
Qed.

Lemma str_eqb_refl (a : str) : str_eqb a a = true.
Proof. now apply str_eqb_eq. Qed.

Lemma str_eqb_neq (a b : str) : str_eqb a b = false <-> a <> b.
Proof.
  split.
  - intros H E. apply str_eqb_eq in E. congruence.
  - intro H. destruct (str_eqb a b) eqn:E; [|reflexivity].
    apply str_eqb_eq in E. contradiction.
Qed.

Lemma str_eqb_sym (a b : str) : str_eqb a b = str_eqb b a.
Proof.
  destruct (str_eqb a b) eqn:E; symmetry.
  - apply str_eqb_eq in E. subst. apply str_eqb_refl.
  - apply str_eqb_neq. apply str_eqb_neq in E. congruence.
Qed.

Section Dropwhile.

Variable p : ascii -> bool.

Lemma dropwhile_all (s : str) : forallb p s = true -> dropwhile p s = [].
Proof.
  induction s as [|c s IH]; simpl; [reflexivity|].
  intro H. apply andb_true_iff in H as [Hc Hs]. now rewrite Hc, IH.
Qed.

Lemma dropwhile_app_all (a b : str) :
  forallb p a = true -> dropwhile p (a ++ b) = dropwhile p b.
Proof.
  induction a as [|c a IH]; simpl; [reflexivity|].
  intro H. apply andb_true_iff in H as [Hc Hs]. now rewrite Hc, IH.
Qed.

Lemma dropwhile_split (s : str) :
  exists l, s = l ++ dropwhile p s /\ forallb p l = true.
Proof.
  induction s as [|c s [l [E Hl]]]; simpl.
  - now exists [].
  - destruct (p c) eqn:Hc.
    + exists (c :: l). simpl. rewrite Hc. split; [now f_equal|assumption].
    + now exists [].
Qed.

Lemma dropwhile_fixed_head (c : ascii) (s : str) :
  dropwhile p (c :: s) = c :: s -> p c = false.
Proof.
  simpl. destruct (p c) eqn:Hc; [|reflexivity].
  intro H. destruct (dropwhile_split s) as [l [E _]].
  rewrite H in E. apply (f_equal (@List.length ascii)) in E.
  rewrite length_app in E. simpl in E. lia.
Qed.

Lemma dropwhile_idem (s : str) : dropwhile p (dropwhile p s) = dropwhile p s.
Proof.
  induction s as [|c s IH]; simpl; [reflexivity|].
  destruct (p c) eqn:Hc; [assumption|]. simpl. now rewrite Hc.
Qed.

Lemma dropwhile_fixed_app (a b : str) :
  a <> [] -> dropwhile p a = a -> dropwhile p (a ++ b) = a ++ b.
Proof.
  destruct a as [|c a]; [congruence|].
  intros _ H. apply dropwhile_fixed_head in H. simpl. now rewrite H.
Qed.

Lemma dropwhile_fixed_prefix (a b : str) :
  a <> [] -> dropwhile p (a ++ b) = a ++ b -> dropwhile p a = a.
Proof.
  destruct a as [|c a]; [congruence|].
  intros _ H. simpl in H. apply dropwhile_fixed_head in H. simpl. now rewrite H.
Qed.

Lemma span_app_stop (a b : str) :
  forallb p a = true ->
  match b with [] => True | c :: _ => p c = false end ->
  span p (a ++ b) = (a, b).
Proof.
  intros Ha Hb. induction a as [|c a IH]; simpl in *.
  - destruct b as [|c b]; [reflexivity|]. simpl. now rewrite Hb.
  - apply andb_true_iff in Ha as [Hc Ha]. rewrite Hc, (IH Ha). reflexivity.
Qed.

Lemma span_spec (s a b : str) :
  span p s = (a, b) ->
  s = a ++ b /\ forallb p a = true /\
  match b with [] => True | c :: _ => p c = false end.
Proof.
  revert a b; induction s as [|c s IH]; simpl; intros a b H.
  - inversion H; subst. auto.
  - destruct (p c) eqn:Hc.
    + destruct (span p s) as [a' b'] eqn:E. inversion H; subst.
      destruct (IH _ _ eq_refl) as [E1 [E2 E3]]. simpl. rewrite Hc.
      repeat split; [now f_equal|assumption|assumption].
    + inversion H; subst. simpl. auto.
Qed.

End Dropwhile.

Lemma strip_split (s : str) :
  exists l r, s = l ++ strip s ++ r /\
              forallb is_space l = true /\ forallb is_space r = true.
Proof.
  unfold strip, lstrip, rstrip.
  destruct (dropwhile_split is_space (rev s)) as [r' [Er Hr]].
  destruct (dropwhile_split is_space (rev (dropwhile is_space (rev s))))
    as [l [El Hl]].
  exists l, (rev r'). repeat split.
  - rewrite app_assoc, <- El, <- rev_app_distr, <- Er. now rewrite rev_involutive.
  - assumption.
  - rewrite forallb_forall in *. intros x Hx. apply Hr. now apply in_rev.
Qed.

Lemma strip_core (l core r : str) :
  forallb is_space l = true -> forallb is_space r = true -> trimmed core ->
  strip (l ++ core ++ r) = core.
Proof.
  intros Hl Hr [Hc1 Hc2]. unfold strip, lstrip, rstrip.
  assert (Hr' : forallb is_space (rev r) = true).
  { rewrite forallb_forall in *. intros x Hx. apply Hr. now apply in_rev in Hx. }
  assert (Hl' : forallb is_space (rev l) = true).
  { rewrite forallb_forall in *. intros x Hx. apply Hl. now apply in_rev in Hx. }
  rewrite !rev_app_distr, <- app_assoc, (dropwhile_app_all _ _ _ Hr').
  destruct core as [|c core].
  - simpl. rewrite (dropwhile_all _ _ Hl'). reflexivity.
  - rewrite dropwhile_fixed_app; [| |assumption].
    2:{ intro E. apply (f_equal (@List.length ascii)) in E.
        rewrite length_rev in E. discriminate. }
    rewrite rev_app_distr, !rev_involutive.
    now rewrite (dropwhile_app_all _ _ _ Hl).
Qed.

Lemma trimmed_strip (s : str) : trimmed (strip s).
Proof.
  unfold trimmed, strip, lstrip, rstrip. split; [apply dropwhile_idem|].
  set (w := dropwhile is_space (rev s)).
  assert (Hw : dropwhile is_space w = w) by apply dropwhile_idem.
  destruct (dropwhile_split is_space (rev w)) as [l [E _]].
  set (u := dropwhile is_space (rev w)) in *.
  destruct u as [|c u]; [reflexivity|].
  apply (f_equal (@rev ascii)) in E.
  rewrite rev_involutive, rev_app_distr in E. rewrite E in Hw.
  apply dropwhile_fixed_prefix in Hw; [assumption|].
  intro N. apply (f_equal (@List.length ascii)) in N.
  rewrite length_rev in N. discriminate.
Qed.

Lemma strip_trimmed (s : str) : trimmed s -> strip s = s.
Proof.
  intro H. generalize (@strip_core [] s [] eq_refl eq_refl H).
  now rewrite app_nil_r.
Qed.

Lemma strip_idem (s : str) : strip (strip s) = strip s.
Proof. apply strip_trimmed, trimmed_strip. Qed.

Lemma trimmed_head (c : ascii) (s : str) : trimmed (c :: s) -> is_space c = false.
Proof. intros [H _]. now apply dropwhile_fixed_head in H. Qed.

Lemma startswith_app (a b : str) : startswith (a ++ b) a = true.
Proof.
  induction a as [|c a IH]; simpl; [reflexivity|].
  now rewrite Ascii.eqb_refl, IH.
Qed.

Lemma contains_here (hay n : str) : startswith hay n = true -> contains hay n = true.
Proof. destruct hay; simpl; intros ->; reflexivity. Qed.

Lemma contains_app (a n b : str) : contains (a ++ n ++ b) n = true.
Proof.
  induction a as [|c a IH].
  - simpl. apply contains_here. apply (startswith_app n b).
  - simpl. rewrite IH. apply orb_true_r.
Qed.

(* ================================================================== *)
(** * Properties of the line scan                                      *)
(* ================================================================== *)

Lemma marker_markers (s : str) : marker s <> None <-> In s markers.
Proof.
  split.
  - unfold marker. intro H.
    repeat match type of H with
           | context [str_eqb s ?m] =>
               let E := fresh "E" in
               destruct (str_eqb s m) eqn:E;
               [apply str_eqb_eq in E; subst s; simpl; tauto|]
           end.
    congruence.
  - intro H. simpl in H.
    repeat (destruct H as [H|H]; [subst s; vm_compute; congruence|]).
    contradiction.
Qed.

Lemma not_marker (line : str) : ~ is_marker line <-> marker (strip line) = None.
Proof.
  unfold is_marker. rewrite <- marker_markers.
  destruct (marker (strip line)); split; intro H; try congruence.
  exfalso. apply H. congruence.
Qed.

Lemma scan_line_marker (st : scan) (line : str) (s : _Section) :
  marker (strip line) = Some s -> scan_line st line = set_state s st.
Proof. intro H. unfold scan_line. now rewrite H. Qed.

Lemma scan_lines_app (st : scan) (a b : list str) :
  scan_lines st (a ++ b) = scan_lines (scan_lines st a) b.
Proof. apply fold_left_app. Qed.

Lemma scan_region (region : list str) :
  Forall (fun l => ~ is_marker l) region ->
  forall st,
    scan_lines st region =
    {| state := state st;
       body_lines := body_lines st ++ kept_body (state st) region;
       solution_lines := solution_lines st ++ kept_solution (state st) region;
       criteria_lines := criteria_lines st ++ kept_criteria (state st) region;
       courses_lines := courses_lines st ++ kept_courses (state st) region |}.
Proof.
  induction 1 as [|line region Hl _ IH]; intros [s b so cr co].
  - simpl. destruct s; simpl; now rewrite !app_nil_r.
  - apply not_marker in Hl.
    change (scan_lines ?st (line :: region))
      with (scan_lines (scan_line st line) region).
    rewrite IH. unfold scan_line. rewrite Hl.
    destruct s; simpl; unfold filtered; simpl;
      try destruct (candidate (strip line)); simpl;
      rewrite <- ?app_assoc, ?app_nil_r; reflexivity.
Qed.

Lemma extends_refl (st : scan) : extends st st.
Proof. repeat split; exists []; now rewrite app_nil_r. Qed.

Lemma extends_trans (a b c : scan) : extends a b -> extends b c -> extends a c.
Proof.
  intros [[x1 H1] [[x2 H2] [[x3 H3] [x4 H4]]]] [[y1 G1] [[y2 G2] [[y3 G3] [y4 G4]]]].
  repeat split; eexists.
  - rewrite G1, H1, <- app_assoc. reflexivity.
  - rewrite G2, H2, <- app_assoc. reflexivity.
  - rewrite G3, H3, <- app_assoc. reflexivity.
  - rewrite G4, H4, <- app_assoc. reflexivity.
Qed.

Lemma scan_line_extends (st : scan) (line : str) : extends st (scan_line st line).
Proof.
  unfold scan_line. destruct (marker (strip line)).
  - repeat split; exists []; simpl; now rewrite app_nil_r.
  - destruct (state st); try destruct (candidate (strip line));
      try apply extends_refl;
      repeat split; simpl;
      first [ now (exists [line]) | now (exists [strip line])
            | exists []; now rewrite app_nil_r ].
Qed.

Lemma scan_lines_extends (lines : list str) (st : scan) :
  extends st (scan_lines st lines).
Proof.
  revert st; induction lines as [|l lines IH]; intro st; simpl.
  - apply extends_refl.
  - eapply extends_trans; [apply scan_line_extends|apply IH].
Qed.

Lemma kept_line_strip (line : str) :
  marker (strip line) = None -> candidate (strip line) = true ->
  kept_line (strip line).
Proof.
  intros Hm Hc. repeat split; try apply trimmed_strip; try assumption.
  apply not_marker. now rewrite strip_idem.
Qed.

Lemma scan_line_clean (st : scan) (line : str) : clean st -> clean (scan_line st line).
Proof.
  intros [Hb [Hs [Hc Hk]]]. unfold scan_line.
  destruct (marker (strip line)) eqn:Hm; [repeat split; assumption|].
  destruct (state st); try destruct (candidate (strip line)) eqn:Hcand;
    repeat split; simpl; try assumption;
    apply Forall_app; split; try assumption; constructor; try constructor;
    first [ now apply not_marker | now apply kept_line_strip ].
Qed.

Lemma scan_lines_clean (lines : list str) (st : scan) :
  clean st -> clean (scan_lines st lines).
Proof.
  revert st; induction lines as [|l lines IH]; intros st H; simpl; [assumption|].
  apply IH. now apply scan_line_clean.
Qed.

Lemma scan_template_clean (content : str) : clean (scan_template content).
Proof.
  apply scan_lines_clean. repeat split; constructor.
Qed.

(** Lines that do not open the body, read outside the body, add nothing to
    the body. *)
Lemma scan_outside_body (lines : list str) :
  Forall (fun l => marker (strip l) <> Some IN_BODY) lines ->
  forall st, state st <> IN_BODY ->
    body_lines (scan_lines st lines) = body_lines st /\
    state (scan_lines st lines) <> IN_BODY.
Proof.
  induction 1 as [|line lines Hl _ IH]; intros st Hst; simpl; [auto|].
  assert (H : body_lines (scan_line st line) = body_lines st /\
              state (scan_line st line) <> IN_BODY).
  { unfold scan_line. revert Hl.
    destruct (marker (strip line)) as [s|]; intro Hl; simpl.
    - split; [reflexivity|]. intro E. apply Hl. now f_equal.
    - destruct (state st) eqn:Es; try congruence;
        try destruct (candidate (strip line));
        simpl; split; congruence. }
  destruct H as [H1 H2]. destruct (IH _ H2) as [H3 H4].
  unfold scan_lines in *. split; congruence.
Qed.

(* ================================================================== *)
(** * Properties of [int]                                              *)
(* ================================================================== *)

(** Facts about single characters are settled by running through the
    repertoire. *)
Ltac by_char c :=
  destruct c as [[] [] [] [] [] [] [] []]; vm_compute; intros;
  repeat match goal with H : _ \/ _ |- _ => destruct H end;
  try discriminate; repeat split; reflexivity.

Lemma int_space_is_space (c : ascii) : is_int_space c = true -> is_space c = true.
Proof. by_char c. Qed.

Lemma int_space_not_rbrace (c : ascii) : is_int_space c = true -> not_rbrace c = true.
Proof. by_char c. Qed.

Lemma digit_facts (c : ascii) :
  is_digit c = true ->
  is_space c = false /\ is_int_space c = false /\ not_rbrace c = true /\
  is_underscore c = false.
Proof. by_char c. Qed.

Lemma underscore_facts (c : ascii) :
  is_underscore c = true -> not_rbrace c = true.
Proof. by_char c. Qed.

Lemma sign_facts (c : ascii) :
  N.eqb (code c) 43 = true \/ N.eqb (code c) 45 = true ->
  is_space c = false /\ is_int_space c = false /\ not_rbrace c = true.
Proof. by_char c. Qed.

Lemma numeral_not_rbrace (run : str) :
  forallb is_numeral_char run = true -> forallb not_rbrace run = true.
Proof.
  induction run as [|c run IH]; simpl; [reflexivity|].
  intro H. apply andb_true_iff in H as [Hc Hr]. rewrite (IH Hr), andb_true_r.
  apply orb_true_iff in Hc as [Hc|Hc].
  - now apply digit_facts in Hc.
  - now apply underscore_facts.
Qed.

Lemma digits_ok_head (c : ascii) (run : str) :
  digits_ok true (c :: run) = true -> is_numeral_char c = true -> is_digit c = true.
Proof.
  simpl. unfold is_numeral_char. destruct (is_underscore c); simpl; [discriminate|].
  intros _ H. now rewrite orb_false_r in H.
Qed.

Lemma digits_ok_last (run : str) :
  forall b, run <> [] -> forallb is_numeral_char run = true ->
            digits_ok b run = true ->
            exists run' d, run = run' ++ [d] /\ is_digit d = true.
Proof.
  induction run as [|c run IH]; intros b Hne Hall Hok; [congruence|].
  simpl in Hall. apply andb_true_iff in Hall as [Hc Hall].
  destruct run as [|c' run].
  - exists [], c. split; [reflexivity|]. simpl in Hok.
    unfold is_numeral_char in Hc. destruct (is_underscore c).
    + simpl in Hok. rewrite andb_false_r in Hok. discriminate.
    + now rewrite orb_false_r in Hc.
  - simpl in Hok.
    assert (Hok' : exists b', digits_ok b' (c' :: run) = true).
    { destruct (is_underscore c).
      - apply andb_true_iff in Hok as [_ Hok]. now exists true.
      - now exists false. }
    destruct Hok' as [b' Hok'].
    destruct (IH b' ltac:(discriminate) Hall Hok') as [run' [d [E Hd]]].
    exists (c :: run'), d. split; [|assumption]. simpl. now rewrite E.
Qed.

(** The number proper inside a string [int] accepts. *)
Lemma py_int_body (sign : Z) (pre s2 : str) (n : Z) :
  (let '(run, rest) := span is_numeral_char s2 in
   match run with
   | [] => None
   | _ :: _ =>
       if digits_ok true run && forallb is_int_space rest
       then Some (sign * digits_value 0 run)%Z else None
   end) = Some n ->
  (pre = [] \/ exists c, pre = [c] /\ is_space c = false /\ not_rbrace c = true) ->
  exists run rest,
    s2 = run ++ rest /\ forallb is_int_space rest = true /\
    trimmed (pre ++ run) /\ forallb not_rbrace (pre ++ run) = true /\
    run <> [] /\ forallb is_numeral_char run = true /\
    digits_ok true run = true /\ n = (sign * digits_value 0 run)%Z.
Proof.
  intros H Hpre.
  destruct (span is_numeral_char s2) as [run rest] eqn:Es.
  apply span_spec in Es as [E [Hall _]].
  destruct run as [|c run]; [discriminate|].
  revert H.
  destruct (digits_ok true (c :: run)) eqn:Hok; [|discriminate].
  destruct (forallb is_int_space rest) eqn:Hrest; simpl; [|discriminate].
  intro H. inversion H; subst n.
  exists (c :: run), rest. repeat split; try assumption; try discriminate.
  - assert (Hc : is_digit c = true).
    { apply digits_ok_head with run; [assumption|].
      simpl in Hall. now apply andb_true_iff in Hall as [Hc _]. }
    apply digit_facts in Hc as [Hc _].
    destruct Hpre as [->|[x [-> [Hx _]]]]; simpl; [now rewrite Hc|now rewrite Hx].
  - destruct (@digits_ok_last (c :: run) true ltac:(discriminate) Hall Hok)
      as [run' [d [E' Hd]]].
    rewrite E', app_assoc, rev_app_distr. simpl.
    apply digit_facts in Hd as [Hd _]. now rewrite Hd.
  - rewrite forallb_app, (numeral_not_rbrace _ Hall), andb_true_r.
    destruct Hpre as [->|[x [-> [_ Hx]]]]; simpl; [reflexivity|now rewrite Hx].
Qed.

Lemma py_int_anatomy (s : str) (n : Z) :
  py_int s = Some n ->
  exists l core r,
    s = l ++ core ++ r /\
    forallb is_int_space l = true /\ forallb is_int_space r = true /\
    trimmed core /\ forallb not_rbrace core = true /\ py_int core = Some n.
Proof.
  unfold py_int. intro H.
  destruct (dropwhile_split is_int_space s) as [l [El Hl]].
  set (s1 := dropwhile is_int_space s) in *.
  assert (Hfix : dropwhile is_int_space s1 = s1) by apply dropwhile_idem.
  change (fun c => is_digit c || is_underscore c) with is_numeral_char in *.
  destruct s1 as [|c r0].
  - simpl in H. discriminate.
  - apply dropwhile_fixed_head in Hfix.
    destruct (N.eqb (code c) 43) eqn:Eplus;
      [|destruct (N.eqb (code c) 45) eqn:Eminus].
    + destruct (sign_facts c (or_introl Eplus)) as [Hs [Hi Hb]].
      destruct (@py_int_body 1%Z [c] r0 n) as [run [rest Hx]].
      { exact H. }
      { right. now exists c. }
      destruct Hx as [E [Hrest [Htrim [Hbr [Hne [Hall [Hok Hn]]]]]]].
      exists l, ([c] ++ run), rest. repeat split; try assumption.
      * rewrite El, E. simpl. reflexivity.
      * apply Htrim.
      * apply Htrim.
      * simpl. rewrite Hi, Eplus.
        rewrite <- (app_nil_r run) at 1.
        rewrite (span_app_stop is_numeral_char run [] Hall I).
        destruct run; [congruence|]. rewrite Hok. simpl. now subst n.
    + destruct (sign_facts c (or_intror Eminus)) as [Hs [Hi Hb]].
      destruct (@py_int_body (-1)%Z [c] r0 n) as [run [rest Hx]].
      { exact H. }
      { right. now exists c. }
      destruct Hx as [E [Hrest [Htrim [Hbr [Hne [Hall [Hok Hn]]]]]]].
      exists l, ([c] ++ run), rest. repeat split; try assumption.
      * rewrite El, E. simpl. reflexivity.
      * apply Htrim.
      * apply Htrim.
      * simpl. rewrite Hi, Eplus, Eminus.
        rewrite <- (app_nil_r run) at 1.
        rewrite (span_app_stop is_numeral_char run [] Hall I).
        destruct run; [congruence|]. rewrite Hok. simpl. now subst n.
    + destruct (@py_int_body 1%Z [] (c :: r0) n) as [run [rest Hx]].
      { exact H. }
      { now left. }
      destruct Hx as [E [Hrest [Htrim [Hbr [Hne [Hall [Hok Hn]]]]]]].
      simpl in Htrim, Hbr.
      exists l, run, rest. repeat split; try assumption.
      * rewrite El, E. reflexivity.
      * apply Htrim.
      * apply Htrim.
      * destruct run as [|d run]; [congruence|].
        inversion E; subst d.
        simpl dropwhile. rewrite Hfix, Eplus, Eminus.
        rewrite <- (app_nil_r (c :: run)) at 1.
        rewrite (span_app_stop is_numeral_char (c :: run) [] Hall I).
        rewrite Hok. simpl. now subst n.
Qed.

Lemma forallb_impl {A} (p q : A -> bool) (l : list A) :
  (forall x, p x = true -> q x = true) -> forallb p l = true -> forallb q l = true.
Proof.
  intros Hpq H. rewrite forallb_forall in *. auto.
Qed.

(** [int] of a string and of the string stripped agree when the first
    succeeds. *)
Lemma py_int_strip (s : str) (n : Z) : py_int s = Some n -> py_int (strip s) = Some n.
Proof.
  intro H. apply py_int_anatomy in H as [l [core [r [E [Hl [Hr [Ht [_ Hc]]]]]]]].
  subst s. rewrite strip_core; try assumption;
    eapply forallb_impl; try eassumption; apply int_space_is_space.
Qed.

Lemma py_int_not_rbrace (s : str) (n : Z) :
  py_int s = Some n -> forallb not_rbrace s = true.
Proof.
  intro H. apply py_int_anatomy in H as [l [core [r [E [Hl [Hr [_ [Hb _]]]]]]]].
  subst s. rewrite !forallb_app, Hb.
  rewrite (forallb_impl _ _ _ int_space_not_rbrace Hl).
  now rewrite (forallb_impl _ _ _ int_space_not_rbrace Hr).
Qed.

(* ================================================================== *)
(** * Properties of the line patterns and of the two loops             *)
(* ================================================================== *)

Lemma expect_app (lit s : str) : expect lit (lit ++ s) = Some s.
Proof.
  induction lit as [|c lit IH]; simpl; [reflexivity|].
  now rewrite Ascii.eqb_refl.
Qed.

Lemma brace_group_app (g rest : str) :
  no_rbrace g -> brace_group (py "{" ++ g ++ py "}" ++ rest) = Some (g, rest).
Proof.
  intro Hg. unfold brace_group. rewrite expect_app.
  rewrite (span_app_stop not_rbrace g (py "}" ++ rest) Hg eq_refl).
  now rewrite expect_app.
Qed.

Lemma dropwhile_nonspace (c : ascii) (s : str) :
  is_space c = false -> dropwhile is_space (c :: s) = c :: s.
Proof. intro H. simpl. now rewrite H. Qed.

Lemma criterion_re_line (D P : str) :
  no_rbrace D -> no_rbrace P -> _CRITERION_RE (criterion_line D P) = Some (D, P).
Proof.
  intros HD HP. unfold _CRITERION_RE, criterion_line.
  change (py "\criterion" ++ ?x) with (BACKSLASH :: py "criterion" ++ x).
  rewrite dropwhile_nonspace by reflexivity.
  change (BACKSLASH :: py "criterion" ++ ?x) with (py "\criterion" ++ x).
  rewrite expect_app, (brace_group_app _ HD).
  rewrite <- (app_nil_r (py "}")), (brace_group_app _ HP). reflexivity.
Qed.

Lemma course_re_line (C Diff T : str) :
  no_rbrace C -> no_rbrace Diff -> no_rbrace T ->
  _COURSE_RE (course_line C Diff T) = Some (C, Diff, T).
Proof.
  intros HC HD HT. unfold _COURSE_RE, course_line.
  change (py "\course" ++ ?x) with (BACKSLASH :: py "course" ++ x).
  rewrite dropwhile_nonspace by reflexivity.
  change (BACKSLASH :: py "course" ++ ?x) with (py "\course" ++ x).
  rewrite expect_app, (brace_group_app _ HC), (brace_group_app _ HD).
  rewrite <- (app_nil_r (py "}")), (brace_group_app _ HT). reflexivity.
Qed.

Lemma criterion_of_line_form (D P : str) (n : Z) :
  no_rbrace D -> py_int P = Some n ->
  criterion_of_line (criterion_line D P) = Ok {| description := strip D; points := n |}.
Proof.
  intros HD HP. unfold criterion_of_line.
  rewrite (criterion_re_line HD (py_int_not_rbrace _ HP)).
  now rewrite (py_int_strip _ HP).
Qed.

Lemma course_of_line_form (C Diff T : str) (d : Difficulty) :
  no_rbrace C -> no_rbrace Diff -> no_rbrace T ->
  Difficulty_of_value (lower (strip Diff)) = Some d ->
  course_of_line (course_line C Diff T) =
  Ok (strip C, {| difficulty := d; topic := or_None (strip T) |}).
Proof.
  intros HC HD HT Hd. unfold course_of_line.
  now rewrite (course_re_line HC HD HT), Hd.
Qed.

Lemma Difficulty_value_of (s : str) (d : Difficulty) :
  Difficulty_of_value s = Some d -> Difficulty_value d = s.
Proof.
  unfold Difficulty_of_value. intro H.
  repeat match type of H with
         | context [str_eqb s ?m] =>
             let E := fresh "E" in
             destruct (str_eqb s m) eqn:E;
             [apply str_eqb_eq in E; inversion H; subst; reflexivity|]
         end.
  discriminate.
Qed.

Lemma Difficulty_of_value_In (s : str) :
  In s [py "easy"; py "medium"; py "hard"] <-> exists d, Difficulty_of_value s = Some d.
Proof.
  split.
  - simpl. intros [<-|[<-|[<-|[]]]]; eexists; reflexivity.
  - intros [d H]. apply Difficulty_value_of in H. subst s.
    destruct d; simpl; tauto.
Qed.

(** ** The loop over the criteria lines *)

Lemma criteria_loop_ok (raws : list str) (cs : list Criterion) :
  Forall2 (fun raw c => criterion_of_line raw = Ok c) raws cs ->
  forall acc, criteria_loop acc raws = Ok (acc ++ cs).
Proof.
  induction 1 as [|raw c raws cs H _ IH]; intro acc; simpl.
  - now rewrite app_nil_r.
  - rewrite H, IH, <- app_assoc. reflexivity.
Qed.

Lemma criteria_loop_inv (raws : list str) :
  forall acc cs, criteria_loop acc raws = Ok cs ->
  exists new, cs = acc ++ new /\
              Forall2 (fun raw c => criterion_of_line raw = Ok c) raws new.
Proof.
  induction raws as [|raw raws IH]; intros acc cs; simpl.
  - intro H. inversion H; subst. exists []. rewrite app_nil_r. auto.
  - destruct (criterion_of_line raw) as [c|e] eqn:E; [|discriminate].
    intro H. apply IH in H as [new [-> HF]].
    exists (c :: new). rewrite <- app_assoc. split; [reflexivity|].
    now constructor.
Qed.

Lemma criteria_loop_first_error (good : list str) (raw : str) (rest : list str)
    (e : TemplateParseError) :
  Forall (fun g => exists c, criterion_of_line g = Ok c) good ->
  criterion_of_line raw = Raise e ->
  forall acc, criteria_loop acc (good ++ raw :: rest) = Raise e.
Proof.
  induction 1 as [|g good [c Hg] _ IH]; intros He acc; simpl.
  - now rewrite He.
  - rewrite Hg. now apply IH.
Qed.

(** ** Dictionaries *)

Lemma dict_get_set_same {V} (k : str) (v : V) (d : dict V) :
  dict_get k (dict_set k v d) = Some v.
Proof.
  induction d as [|[k' v'] d IH]; simpl.
  - now rewrite str_eqb_refl.
  - destruct (str_eqb k' k) eqn:E; simpl; now rewrite E.
Qed.

Lemma dict_get_set_other {V} (k k' : str) (v : V) (d : dict V) :
  k' <> k -> dict_get k' (dict_set k v d) = dict_get k' d.
Proof.
  intro Hne. induction d as [|[k0 v0] d IH]; simpl.
  - apply not_eq_sym in Hne. apply str_eqb_neq in Hne. now rewrite Hne.
  - destruct (str_eqb k0 k) eqn:E; simpl.
    + apply str_eqb_eq in E. subst k0.
      apply not_eq_sym in Hne. apply str_eqb_neq in Hne. now rewrite Hne.
    + destruct (str_eqb k0 k'); [reflexivity|assumption].
Qed.

Lemma entries_for_set_same {V} (k : str) (v : V) (d : dict V) :
  entries_for k (dict_set k v d) = Nat.max 1 (entries_for k d).
Proof.
  unfold entries_for. induction d as [|[k' v'] d IH]; simpl.
  - now rewrite str_eqb_refl.
  - destruct (str_eqb k' k) eqn:E; simpl; rewrite E; simpl.
    + reflexivity.
    + apply IH.
Qed.

Lemma entries_for_set_other {V} (k k' : str) (v : V) (d : dict V) :
  k' <> k -> entries_for k' (dict_set k v d) = entries_for k' d.
Proof.
  intro Hne. unfold entries_for. induction d as [|[k0 v0] d IH]; simpl.
  - apply not_eq_sym in Hne. apply str_eqb_neq in Hne. now rewrite Hne.
  - destruct (str_eqb k0 k) eqn:E; simpl.
    + destruct (str_eqb k0 k'); reflexivity.
    + destruct (str_eqb k0 k'); simpl; now rewrite IH.
Qed.

Lemma unique_nil {V} : unique (@nil (str * V)).
Proof. intro k. unfold entries_for. simpl. lia. Qed.

Lemma unique_set {V} (k : str) (v : V) (d : dict V) :
  unique d -> unique (dict_set k v d).
Proof.
  intros H k'. destruct (str_eqb k' k) eqn:E.
  - apply str_eqb_eq in E. subst k'. rewrite entries_for_set_same.
    specialize (H k). lia.
  - apply str_eqb_neq in E. rewrite entries_for_set_other by assumption. apply H.
Qed.

Lemma unique_set_all {V} (entries : list (str * V)) :
  forall d, unique d -> unique (set_all entries d).
Proof.
  induction entries as [|[k v] entries IH]; intros d H; simpl; [assumption|].
  apply IH. now apply unique_set.
Qed.

Lemma set_all_other {V} (k : str) (entries : list (str * V)) :
  Forall (fun e => fst e <> k) entries ->
  forall d, dict_get k (set_all entries d) = dict_get k d /\
            entries_for k (set_all entries d) = entries_for k d.
Proof.
  induction 1 as [|[k' v'] entries Hk _ IH]; intro d; simpl; [auto|].
  simpl in Hk. destruct (IH (dict_set k' v' d)) as [H1 H2].
  unfold set_all in *. rewrite H1, H2.
  split.
  - apply dict_get_set_other. congruence.
  - apply entries_for_set_other. congruence.
Qed.

(** The last assignment to a key decides its entry, and the entry is the
    only one for that key. *)
Lemma set_all_last {V} (k : str) (v : V) (before after : list (str * V)) (d : dict V) :
  unique d -> Forall (fun e => fst e <> k) after ->
  dict_get k (set_all (before ++ (k, v) :: after) d) = Some v /\
  entries_for k (set_all (before ++ (k, v) :: after) d) = 1.
Proof.
  intros Hu Hafter.
  replace (set_all (before ++ (k, v) :: after) d)
    with (set_all after (dict_set k v (set_all before d)))
    by (unfold set_all; now rewrite fold_left_app).
  destruct (set_all_other Hafter (dict_set k v (set_all before d))) as [H1 H2].
  rewrite H1, H2.
  split; [apply dict_get_set_same|].
  rewrite entries_for_set_same.
  generalize (unique_set_all before Hu k). lia.
Qed.

(** ** The loop over the course lines *)

Lemma courses_loop_inv (raws : list str) :
  forall acc d, courses_loop acc raws = Ok d ->
  exists entries, Forall2 (fun raw e => course_of_line raw = Ok e) raws entries /\
                  d = set_all entries acc.
Proof.
  induction raws as [|raw raws IH]; intros acc d; simpl.
  - intro H. inversion H; subst. exists []. auto.
  - destruct (course_of_line raw) as [[c a]|e] eqn:E; [|discriminate].
    intro H. apply IH in H as [entries [HF ->]].
    exists ((c, a) :: entries). split; [now constructor|reflexivity].
Qed.

Lemma courses_loop_ok (raws : list str) (entries : list (str * CourseAssignment)) :
  Forall2 (fun raw e => course_of_line raw = Ok e) raws entries ->
  forall acc, courses_loop acc raws = Ok (set_all entries acc).
Proof.
  induction 1 as [|raw [c a] raws entries H _ IH]; intro acc; simpl; [reflexivity|].
  rewrite H. apply IH.
Qed.

Lemma Forall2_of_Forall_exists {A B} (R : A -> B -> Prop) (l : list A) :
  Forall (fun a => exists b, R a b) l -> exists l', Forall2 R l l'.
Proof.
  induction 1 as [|a l [b Hb] _ [l' IH]].
  - exists []. constructor.
  - exists (b :: l'). now constructor.
Qed.

(* ================================================================== *)
(** * Properties of [repr] and of the messages                         *)
(* ================================================================== *)

Lemma printable_codes (c : ascii) :
  is_printable c = true ->
  N.eqb (code c) 9 = false /\ N.eqb (code c) 10 = false /\ N.eqb (code c) 13 = false.
Proof. by_char c. Qed.

Lemma repr_chars_plain (q : ascii) (s : str) :
  forallb (fun c => is_printable c && negb (Ascii.eqb c BACKSLASH)) s = true ->
  has_char q s = false ->
  flat_map (repr_char q) s = s.
Proof.
  induction s as [|c s IH]; simpl; [reflexivity|].
  intros Hall Hq. apply andb_true_iff in Hall as [Hc Hall].
  apply andb_true_iff in Hc as [Hp Hb]. apply negb_true_iff in Hb.
  apply orb_false_iff in Hq as [Hq Hs].
  rewrite (IH Hall Hs). unfold repr_char.
  rewrite Ascii.eqb_sym, Hq, Hb. simpl.
  destruct (printable_codes c Hp) as [-> [-> ->]]. now rewrite Hp.
Qed.

Lemma repr_verbatim (s : str) :
  verbatim s = true -> exists q, repr s = q :: s ++ [q].
Proof.
  unfold verbatim, repr. intro H. apply andb_true_iff in H as [Hall Hq].
  apply negb_true_iff in Hq.
  destruct (has_char QUOTE s) eqn:H1; destruct (has_char DQUOTE s) eqn:H2;
    simpl in *; try discriminate.
  - exists DQUOTE. now rewrite (repr_chars_plain _ _ Hall H2).
  - exists QUOTE. now rewrite (repr_chars_plain _ _ Hall H1).
  - exists QUOTE. now rewrite (repr_chars_plain _ _ Hall H1).
Qed.

Lemma contains_repr_verbatim (a b s : str) :
  verbatim s = true -> contains (a ++ repr s ++ b) s = true.
Proof.
  intro H. destruct (repr_verbatim s H) as [q ->].
  replace (a ++ (q :: s ++ [q]) ++ b) with ((a ++ [q]) ++ s ++ ([q] ++ b)).
  - apply contains_app.
  - simpl. rewrite <- !app_assoc. reflexivity.
Qed.

Lemma message_BadCriterionLine (raw : str) :
  contains (message (BadCriterionLine raw)) (repr raw) = true /\
  (verbatim raw = true -> contains (message (BadCriterionLine raw)) raw = true).
Proof.
  unfold message. split; [apply contains_app|apply contains_repr_verbatim].
Qed.

Lemma message_BadPoints (pts_str : str) :
  contains (message (BadPoints pts_str)) (repr pts_str) = true /\
  (verbatim pts_str = true -> contains (message (BadPoints pts_str)) pts_str = true).
Proof.
  unfold message. split.
  - rewrite <- (app_nil_r (repr pts_str)) at 1. apply contains_app.
  - intro H. rewrite <- (app_nil_r (repr pts_str)). now apply contains_repr_verbatim.
Qed.

(* ================================================================== *)
(** * Properties of [parse_template]                                   *)
(* ================================================================== *)

Lemma parse_template_inv (content : str) (pt : ParsedTemplate) :
  parse_template content = Ok pt ->
  let st := scan_template content in
  body pt = strip (join [NL] (body_lines st)) /\ body pt <> [] /\
  solution pt = or_None (strip (join [NL] (solution_lines st))) /\
  criteria_loop [] (criteria_lines st) = Ok (criteria pt) /\
  courses_loop [] (courses_lines st) = Ok (courses pt).
Proof.
  intros H st. unfold parse_template in H. fold st in H.
  destruct (strip (join [NL] (body_lines st))) as [|c b] eqn:Eb; [discriminate|].
  destruct (criteria_loop [] (criteria_lines st)) as [cr|e]; [|discriminate].
  destruct (courses_loop [] (courses_lines st)) as [cs|e]; [|discriminate].
  inversion H; subst; simpl. repeat split; try reflexivity. discriminate.
Qed.

Lemma parse_template_ok (content : str) (cr : list Criterion)
    (cs : dict CourseAssignment) :
  let st := scan_template content in
  strip (join [NL] (body_lines st)) <> [] ->
  criteria_loop [] (criteria_lines st) = Ok cr ->
  courses_loop [] (courses_lines st) = Ok cs ->
  parse_template content =
  Ok {| body := strip (join [NL] (body_lines st)); criteria := cr;
        solution := or_None (strip (join [NL] (solution_lines st)));
        courses := cs |}.
Proof.
  intros st Hb Hcr Hcs. unfold parse_template. fold st.
  destruct (strip (join [NL] (body_lines st))) as [|c b]; [congruence|].
  now rewrite Hcr, Hcs.
Qed.

Lemma parse_template_criteria_error (content : str) (e : TemplateParseError) :
  let st := scan_template content in
  strip (join [NL] (body_lines st)) <> [] ->
  criteria_loop [] (criteria_lines st) = Raise e ->
  parse_template content = Raise e.
Proof.
  intros st Hb Hcr. unfold parse_template. fold st.
  destruct (strip (join [NL] (body_lines st))) as [|c b]; [congruence|].
  now rewrite Hcr.
Qed.

(** ** Empty body *)

(** C3: when the lines captured for the body join and strip to the empty
    string, [parse_template] raises the empty-body error whatever the other
    sections hold, and returns no [ParsedTemplate]. *)
Theorem empty_body_rejected (content : str) :
  strip (join [NL] (body_lines (scan_template content))) = [] ->
  parse_template content = Raise EmptyBody /\
  forall pt, parse_template content <> Ok pt.
Proof.
  intro H. assert (E : parse_template content = Raise EmptyBody).
  { unfold parse_template. now rewrite H. }
  split; [assumption|]. intros pt Hpt. congruence.
Qed.

Lemma empty_body_rejected_witness :
  strip (join [NL] (body_lines (scan_template blank_body_template))) = [] /\
  criteria_lines (scan_template blank_body_template) =
    [py "No backslash criterion here"; py "\criterion{Good answer}{four}"] /\
  parse_template blank_body_template = Raise EmptyBody.
Proof.
  split; [reflexivity|]. split; [reflexivity|].
  apply (empty_body_rejected blank_body_template). reflexivity.
Defined.

(** ** The body region *)

(** A template cut at its one body region: [pre], the opening marker [b],
    the lines of the region, and [post], which is empty or starts with the
    marker that closes the region. *)
Lemma scan_body_region (pre : list str) (b : str) (region post : list str) :
  Forall (fun l => marker (strip l) <> Some IN_BODY) pre ->
  marker (strip b) = Some IN_BODY ->
  Forall (fun l => ~ is_marker l) region ->
  match post with [] => True | e :: _ => is_marker e end ->
  Forall (fun l => marker (strip l) <> Some IN_BODY) post ->
  body_lines (scan_lines scan_start (pre ++ b :: region ++ post)) = region.
Proof.
  intros Hpre Hb Hregion Hhead Hpost.
  destruct (scan_outside_body Hpre scan_start) as [B1 S1]; [discriminate|].
  rewrite scan_lines_app.
  change (scan_lines ?st (b :: ?r)) with (scan_lines (scan_line st b) r).
  rewrite (scan_line_marker _ _ Hb), scan_lines_app, (scan_region Hregion).
  simpl state. simpl body_lines. rewrite B1. simpl.
  destruct post as [|e post]; [reflexivity|].
  inversion Hpost as [|? ? He Hpost']; subst.
  apply marker_markers in Hhead.
  destruct (marker (strip e)) as [s|] eqn:Em; [|congruence].
  change (scan_lines ?st (e :: ?r)) with (scan_lines (scan_line st e) r).
  rewrite (scan_line_marker _ _ Em).
  match goal with
  | |- body_lines (scan_lines ?st post) = _ =>
      destruct (scan_outside_body Hpost' st) as [B2 _]
  end.
  - simpl. congruence.
  - rewrite B2. reflexivity.
Qed.

(** C8: for a template with one body region (the lines between the opening
    body marker and the next marker line, no other line opening the body),
    the lines captured for the body are exactly the lines of the region,
    blank and comment lines included; the body returned is these lines
    joined with newlines and stripped; stripping removes blanks at the two
    ends only; and the parse returns that body once the other sections are
    valid. *)
Theorem body_region_verbatim (content : str) (pre : list str) (b : str)
    (region post : list str) :
  splitlines content = pre ++ b :: region ++ post ->
  Forall (fun l => marker (strip l) <> Some IN_BODY) pre ->
  marker (strip b) = Some IN_BODY ->
  Forall (fun l => ~ is_marker l) region ->
  match post with [] => True | e :: _ => is_marker e end ->
  Forall (fun l => marker (strip l) <> Some IN_BODY) post ->
  body_lines (scan_template content) = region /\
  (forall pt, parse_template content = Ok pt -> body pt = strip (join [NL] region)) /\
  (exists l r, join [NL] region = l ++ strip (join [NL] region) ++ r /\
               forallb is_space l = true /\ forallb is_space r = true) /\
  (forall cr cs,
     strip (join [NL] region) <> [] ->
     criteria_loop [] (criteria_lines (scan_template content)) = Ok cr ->
     courses_loop [] (courses_lines (scan_template content)) = Ok cs ->
     exists so, parse_template content =
                Ok {| body := strip (join [NL] region); criteria := cr;
                      solution := so; courses := cs |}).
Proof.
  intros Hsplit Hpre Hb Hregion Hhead Hpost.
  assert (E : body_lines (scan_template content) = region).
  { unfold scan_template. rewrite Hsplit. now apply scan_body_region. }
  split; [assumption|]. split; [|split].
  - intros pt Hpt. apply parse_template_inv in Hpt as [Hbody _]. now rewrite <- E.
  - apply strip_split.
  - intros cr cs Hne Hcr Hcs. eexists. rewrite <- E in *.
    now apply parse_template_ok.
Qed.

Lemma body_region_verbatim_witness :
  parse_template commented_body_template =
  Ok {| body := py "First line.

% a comment kept in the body
    indented  text";
        criteria := [ {| description := py "Correct"; points := 4 |} ];
        solution := None; courses := [] |} /\
  body_lines (scan_template commented_body_template) =
  [py "  First line."; []; py "% a comment kept in the body";
   py "    indented  text"; []].
Proof.
  split; [reflexivity|].
  apply (@body_region_verbatim commented_body_template
           [py "preamble"] (py "% @@BEGIN_BODY")
           [py "  First line."; []; py "% a comment kept in the body";
            py "    indented  text"; []]
           [py "% @@END_BODY"; py "% @@BEGIN_CRITERIA";
            py "\criterion{Correct}{4}"; py "% @@END_CRITERIA"]).
  - reflexivity.
  - repeat constructor; vm_compute; discriminate.
  - reflexivity.
  - repeat constructor; intro H; apply marker_markers in H; vm_compute in H;
      congruence.
  - vm_compute. tauto.
  - repeat constructor; vm_compute; discriminate.
Defined.

(** ** Marker lines *)

(** C10: a line whose stripped form is one of the eight markers only sets
    the current section, to the section of the marker and whatever the
    section was; it is added to no list, so no line captured from any
    template is a marker line; and a marker of another section met inside
    the body ends the capture of the body: it and the lines after it, up to
    the next opening body marker, add nothing to the body. *)
Theorem marker_lines_never_captured :
  (forall m, In m markers <-> marker m <> None) /\
  (forall st line, is_marker line ->
     exists s, marker (strip line) = Some s /\
               scan_line st line = set_state s st /\
               state (scan_line st line) = s /\
               body_lines (scan_line st line) = body_lines st /\
               solution_lines (scan_line st line) = solution_lines st /\
               criteria_lines (scan_line st line) = criteria_lines st /\
               courses_lines (scan_line st line) = courses_lines st) /\
  (forall content,
     let st := scan_template content in
     Forall (fun l => ~ is_marker l)
            (body_lines st ++ solution_lines st ++ criteria_lines st ++
             courses_lines st)) /\
  (forall st m rest,
     state st = IN_BODY -> is_marker m -> marker (strip m) <> Some IN_BODY ->
     Forall (fun l => marker (strip l) <> Some IN_BODY) rest ->
     state (scan_line st m) <> IN_BODY /\
     body_lines (scan_lines st (m :: rest)) = body_lines st).
Proof.
  split; [|split; [|split]].
  - intro m. symmetry. apply marker_markers.
  - intros st line H. apply marker_markers in H.
    destruct (marker (strip line)) as [s|] eqn:E; [|congruence].
    exists s. rewrite (scan_line_marker _ _ E). repeat split.
  - intros content st.
    destruct (scan_template_clean content) as [Hb [Hs [Hc Hk]]]. fold st in Hb, Hs, Hc, Hk.
    repeat (apply Forall_app; split); try assumption;
      eapply Forall_impl; try eassumption; intros l Hl; apply Hl.
  - intros st m rest Hst Hm Hnot Hrest. apply marker_markers in Hm.
    destruct (marker (strip m)) as [s|] eqn:E; [|congruence].
    change (scan_lines st (m :: rest)) with (scan_lines (scan_line st m) rest).
    rewrite (scan_line_marker _ _ E).
    assert (Hs : state (set_state s st) <> IN_BODY) by (simpl; congruence).
    split; [assumption|].
    now destruct (scan_outside_body Hrest _ Hs) as [-> _].
Qed.

Lemma marker_lines_never_captured_witness :
  parse_template nested_marker_template =
  Ok {| body := py "Question text."; criteria := [];
        solution := Some (py "The answer."); courses := [] |} /\
  body_lines
    (scan_lines
       (scan_lines scan_start [py "% @@BEGIN_BODY"; py "Question text."])
       [py "% @@BEGIN_SOLUTION"; py "The answer."; py "% @@END_BODY";
        py "% @@END_SOLUTION"]) =
  [py "Question text."].
Proof.
  split; [reflexivity|].
  apply (proj2 (proj2 (proj2 marker_lines_never_captured))
           (scan_lines scan_start [py "% @@BEGIN_BODY"; py "Question text."])
           (py "% @@BEGIN_SOLUTION")
           [py "The answer."; py "% @@END_BODY"; py "% @@END_SOLUTION"]).
  - reflexivity.
  - vm_compute. tauto.
  - vm_compute. discriminate.
  - repeat constructor; vm_compute; discriminate.
Defined.

(** ** A section opened twice *)

(** C7, as stated, fails: the line captured before the second opening
    marker of the body is still in the lines of the body and in the body
    returned. *)
Lemma second_begin_marker_does_not_reset :
  body_lines
    (scan_lines scan_start [py "% @@BEGIN_BODY"; py "first"; py "% @@END_BODY"]) =
  [py "first"] /\
  body_lines (scan_template twice_body_template) = [py "first"; py "second"] /\
  parse_template twice_body_template =
  Ok {| body := py "first
second"; criteria := []; solution := None; courses := [] |} /\
  contains (py "first
second") (py "first") = true.
Proof. repeat split. Qed.

(** C7, amended: a marker that opens a section again only makes that
    section the current one.  The lines captured before it stay where they
    are; the lines that follow it are added after them (verbatim for the
    body, stripped and without blank and comment lines for the other
    sections); nothing is dropped later either. *)
Theorem begin_marker_resumes_capture (before : list str) (b : str)
    (region rest : list str) (s : _Section) :
  marker (strip b) = Some s ->
  Forall (fun l => ~ is_marker l) region ->
  let st := scan_lines scan_start before in
  let st' := scan_lines scan_start (before ++ b :: region) in
  let st'' := scan_lines scan_start (before ++ b :: region ++ rest) in
  scan_line st b = set_state s st /\
  state st' = s /\
  body_lines st' = body_lines st ++ kept_body s region /\
  solution_lines st' = solution_lines st ++ kept_solution s region /\
  criteria_lines st' = criteria_lines st ++ kept_criteria s region /\
  courses_lines st' = courses_lines st ++ kept_courses s region /\
  extends st' st''.
Proof.
  intros Hb Hregion st st' st''.
  assert (E : st' = scan_lines (set_state s st) region).
  { unfold st'. rewrite scan_lines_app.
    change (scan_lines ?x (b :: ?r)) with (scan_lines (scan_line x b) r).
    now rewrite (scan_line_marker _ _ Hb). }
  assert (X : extends st' st'').
  { unfold st'', st'.
    replace (before ++ b :: region ++ rest) with ((before ++ b :: region) ++ rest)
      by (rewrite <- app_assoc; reflexivity).
    rewrite (scan_lines_app scan_start (before ++ b :: region) rest).
    apply scan_lines_extends. }
  split; [now apply scan_line_marker|].
  rewrite (scan_region Hregion) in E.
  rewrite E at 1 2 3 4 5. simpl. repeat (split; [reflexivity|]). exact X.
Qed.

Lemma begin_marker_resumes_capture_witness :
  body_lines
    (scan_lines scan_start
       ([py "% @@BEGIN_BODY"; py "first"; py "% @@END_BODY"] ++
        py "% @@BEGIN_BODY" :: [py "second"])) =
  body_lines
    (scan_lines scan_start [py "% @@BEGIN_BODY"; py "first"; py "% @@END_BODY"]) ++
  [py "second"].
Proof.
  apply (@begin_marker_resumes_capture
           [py "% @@BEGIN_BODY"; py "first"; py "% @@END_BODY"]
           (py "% @@BEGIN_BODY") [py "second"] [py "% @@END_BODY"] IN_BODY).
  - reflexivity.
  - repeat constructor. vm_compute. intuition discriminate.
Defined.

(** ** The criteria section *)

Lemma criteria_of_args (args : list (str * str * Z)) :
  Forall arg_ok args ->
  Forall2 (fun raw c => criterion_of_line raw = Ok c)
          (map arg_line args) (map arg_criterion args).
Proof.
  induction 1 as [|[[D P] n] args [HD HP] _ IH]; simpl; constructor; try assumption.
  now apply criterion_of_line_form.
Qed.

Lemma candidate_false (s : str) :
  candidate s = false <-> s = [] \/ startswith s (py "%") = true.
Proof.
  unfold candidate. destruct s as [|c s].
  - split; auto.
  - rewrite negb_false_iff. split; [auto|]. intros [H|H]; [discriminate|assumption].
Qed.

(** C2: when every candidate line of the criteria section reads
    [\criterion{D}{P}] with [P] an integer for [int], the criteria returned
    are, line by line and in the order of the lines, the stripped [D] with
    [int(P)]; the parse returns them once the body is not empty and the
    courses are valid.  In the criteria section the candidate lines are the
    stripped lines in their order, without those that are blank once
    stripped or start with a percent sign: such a line adds no entry. *)
Theorem criteria_parsed_in_order :
  (forall content (args : list (str * str * Z)),
     criteria_lines (scan_template content) = map arg_line args ->
     Forall arg_ok args ->
     criteria_loop [] (criteria_lines (scan_template content)) =
       Ok (map arg_criterion args) /\
     (forall pt, parse_template content = Ok pt ->
                 criteria pt = map arg_criterion args) /\
     (forall cs,
        strip (join [NL] (body_lines (scan_template content))) <> [] ->
        courses_loop [] (courses_lines (scan_template content)) = Ok cs ->
        exists pt, parse_template content = Ok pt /\
                   criteria pt = map arg_criterion args)) /\
  (forall st region,
     state st = IN_CRITERIA -> Forall (fun l => ~ is_marker l) region ->
     criteria_lines (scan_lines st region) =
     criteria_lines st ++ filter candidate (map strip region)) /\
  (forall st line,
     strip line = [] \/ startswith (strip line) (py "%") = true ->
     criteria_lines (scan_line st line) = criteria_lines st).
Proof.
  split; [|split].
  - intros content args Hlines Hargs.
    assert (Hloop : criteria_loop [] (criteria_lines (scan_template content)) =
                    Ok (map arg_criterion args)).
    { rewrite Hlines. apply (criteria_loop_ok (criteria_of_args Hargs) []). }
    split; [assumption|]. split.
    + intros pt Hpt. apply parse_template_inv in Hpt as [_ [_ [_ [Hcr _]]]].
      congruence.
    + intros cs Hbody Hcs. eexists. split.
      * apply (@parse_template_ok content _ _ Hbody Hloop Hcs).
      * reflexivity.
  - intros st region Hst Hregion. rewrite (scan_region Hregion). simpl.
    now rewrite Hst.
  - intros st line H. apply candidate_false in H. unfold scan_line.
    destruct (marker (strip line)); [reflexivity|].
    destruct (state st); try reflexivity; now rewrite H.
Qed.

Lemma criteria_parsed_in_order_witness :
  criteria_lines (scan_template criteria_template) =
  [py "\criterion{Correct}{4}"; py "\criterion{  Good answer  }{ +1_0 }";
   py "\criterion{Penalty}{-2}"] /\
  exists pt, parse_template criteria_template = Ok pt /\
    criteria pt =
    [ {| description := py "Correct"; points := 4 |};
      {| description := py "Good answer"; points := 10 |};
      {| description := py "Penalty"; points := -2 |} ].
Proof.
  split; [reflexivity|].
  apply (proj2 (proj2 (proj1 criteria_parsed_in_order criteria_template
                  [ (py "Correct", py "4", 4%Z);
                    (py "  Good answer  ", py " +1_0 ", 10%Z);
                    (py "Penalty", py "-2", (-2)%Z) ]
                  eq_refl
                  ltac:(repeat constructor))) []).
  - vm_compute. discriminate.
  - reflexivity.
Defined.

(** C4, as stated, fails: the only candidate line of the criteria section
    does not match the pattern, the parse fails with the bad-line error for
    that line, and the message does not contain the line: it holds its
    [repr], where each backslash is doubled.  The same for a points value
    that is not an integer. *)
Lemma criterion_message_not_literal :
  (criteria_lines (scan_template nested_braces_template) =
     [py "\criterion{$\frac{1}{2}$}{3}"] /\
   _CRITERION_RE (py "\criterion{$\frac{1}{2}$}{3}") = None /\
   parse_template nested_braces_template =
     Raise (BadCriterionLine (py "\criterion{$\frac{1}{2}$}{3}")) /\
   message (BadCriterionLine (py "\criterion{$\frac{1}{2}$}{3}")) =
     py "Bad criterion line: '\\criterion{$\\frac{1}{2}$}{3}' " ++ EM_DASH ++
     py " expected format: \criterion{description}{points}" /\
   contains (message (BadCriterionLine (py "\criterion{$\frac{1}{2}$}{3}")))
            (py "\criterion{$\frac{1}{2}$}{3}") = false) /\
  (_CRITERION_RE (py "\criterion{Half marks}{1\over 2}") =
     Some (py "Half marks", py "1\over 2") /\
   py_int (py "1\over 2") = None /\
   parse_template fraction_points_template = Raise (BadPoints (py "1\over 2")) /\
   message (BadPoints (py "1\over 2")) =
     py "Criterion points must be an integer, got: '1\\over 2'" /\
   contains (message (BadPoints (py "1\over 2"))) (py "1\over 2") = false).
Proof. repeat split. Qed.

(** C4, amended: with a body that is not empty, the first candidate line of
    the criteria section that is not a valid criterion decides the error.
    If it does not match the pattern, the parse fails with the bad-line
    error for that line; if it matches and its stripped points argument is
    no integer for [int], the parse fails with the bad-points error for
    that value.  The message contains the [repr] of the line, or of the
    value; it contains the text itself when the text is printable, has no
    backslash and does not hold both kinds of quote. *)
Theorem criteria_errors_cite_repr (content : str) (good : list str) (raw : str)
    (rest : list str) :
  strip (join [NL] (body_lines (scan_template content))) <> [] ->
  criteria_lines (scan_template content) = good ++ raw :: rest ->
  Forall (fun g => exists c, criterion_of_line g = Ok c) good ->
  (_CRITERION_RE raw = None ->
   parse_template content = Raise (BadCriterionLine raw) /\
   contains (message (BadCriterionLine raw)) (repr raw) = true /\
   (verbatim raw = true ->
    contains (message (BadCriterionLine raw)) raw = true)) /\
  (forall g1 g2,
     _CRITERION_RE raw = Some (g1, g2) -> py_int (strip g2) = None ->
     parse_template content = Raise (BadPoints (strip g2)) /\
     contains (message (BadPoints (strip g2))) (repr (strip g2)) = true /\
     (verbatim (strip g2) = true ->
      contains (message (BadPoints (strip g2))) (strip g2) = true)).
Proof.
  intros Hbody Hlines Hgood. split.
  - intro Hre. split; [|apply message_BadCriterionLine].
    apply parse_template_criteria_error; [assumption|].
    rewrite Hlines. apply criteria_loop_first_error; [assumption|].
    unfold criterion_of_line. now rewrite Hre.
  - intros g1 g2 Hre Hint. split; [|apply message_BadPoints].
    apply parse_template_criteria_error; [assumption|].
    rewrite Hlines. apply criteria_loop_first_error; [assumption|].
    unfold criterion_of_line. now rewrite Hre, Hint.
Qed.

Lemma criteria_errors_cite_repr_witness :
  parse_template bad_second_criterion_template =
    Raise (BadCriterionLine (py "No backslash criterion here")) /\
  contains (message (BadCriterionLine (py "No backslash criterion here")))
           (repr (py "No backslash criterion here")) = true /\
  (verbatim (py "No backslash criterion here") = true ->
   contains (message (BadCriterionLine (py "No backslash criterion here")))
            (py "No backslash criterion here") = true).
Proof.
  apply (proj1 (@criteria_errors_cite_repr bad_second_criterion_template
                  [py "\criterion{Correct}{4}"]
                  (py "No backslash criterion here")
                  [py "\criterion{Good answer}{four}"]
                  ltac:(vm_compute; discriminate)
                  eq_refl
                  ltac:(repeat constructor; eexists; reflexivity))).
  reflexivity.
Defined.

(** ** The courses section *)

Lemma Forall2_other_code (k : str) (raws : list str)
    (entries : list (str * CourseAssignment)) :
  Forall2 (fun raw e => course_of_line raw = Ok e) raws entries ->
  Forall (other_code k) raws -> Forall (fun e => fst e <> k) entries.
Proof.
  induction 1 as [|raw [c a] raws entries H _ IH]; intro HF; constructor;
    inversion HF; subst.
  - simpl. eauto.
  - auto.
Qed.

(** The entry of a key after the loop is the one of the last line that
    assigns it, and it is the only entry of that key. *)
Lemma courses_loop_last (before : list str) (raw : str) (after : list str)
    (k : str) (a : CourseAssignment) (d : dict CourseAssignment) :
  courses_loop [] (before ++ raw :: after) = Ok d ->
  course_of_line raw = Ok (k, a) ->
  Forall (other_code k) after ->
  dict_get k d = Some a /\ entries_for k d = 1.
Proof.
  intros Hloop Hraw Hafter.
  apply courses_loop_inv in Hloop as [entries [HF ->]].
  apply Forall2_app_inv_l in HF as [e1 [e2 [H1 [H2 ->]]]].
  inversion H2 as [|? x ? e3 Hx H3]; subst.
  rewrite Hraw in Hx. inversion Hx; subst x.
  apply set_all_last; [apply unique_nil|].
  now apply Forall2_other_code with after.
Qed.

Lemma courses_loop_valid (raws : list str) :
  Forall valid_course raws -> exists d, courses_loop [] raws = Ok d.
Proof.
  intro H.
  destruct (Forall2_of_Forall_exists (fun raw e => course_of_line raw = Ok e) H)
    as [entries HF].
  eexists. apply (courses_loop_ok HF).
Qed.

Lemma Forall_insert {A} (P : A -> Prop) (l1 l2 : list A) (x : A) :
  Forall P (l1 ++ l2) -> P x -> Forall P (l1 ++ x :: l2).
Proof.
  intros H Hx. apply Forall_app in H as [H1 H2].
  apply Forall_app. split; [assumption|now constructor].
Qed.

(** C1, as stated, fails: the courses section holds the candidate line
    [\course{A}{easy}{X}], the parse succeeds, and the entry of [A] in the
    mapping returned has difficulty hard and topic [Y], from the later line
    with the same code. *)
Lemma course_line_overwritten :
  courses_lines (scan_template duplicate_course_template) =
    [course_line (py "A") (py "easy") (py "X");
     course_line (py "A") (py "hard") (py "Y")] /\
  In (lower (strip (py "easy"))) [py "easy"; py "medium"; py "hard"] /\
  exists pt,
    parse_template duplicate_course_template = Ok pt /\
    dict_get (strip (py "A")) (courses pt) =
      Some {| difficulty := HARD; topic := Some (py "Y") |} /\
    dict_get (strip (py "A")) (courses pt) <>
      Some {| difficulty := EASY; topic := or_None (strip (py "X")) |}.
Proof.
  split; [reflexivity|]. split; [simpl; tauto|].
  eexists. split; [reflexivity|]. split; [reflexivity|].
  vm_compute. discriminate.
Qed.

(** C1, amended: a candidate line [\course{C}{Diff}{T}] of the courses
    section whose difficulty, stripped and lower-cased, is easy, medium or
    hard is accepted by the loop, which assigns to the stripped [C] the
    member of [Difficulty] with that lower-case value and the stripped [T],
    or no topic when the stripped [T] is empty.  When no later candidate
    line assigns the same code, this is the entry of that code in the
    mapping returned; and the parse returns once the body is not empty and
    the other candidate lines are valid. *)
Theorem course_line_entry (content : str) (before : list str) (C Diff T : str)
    (after : list str) :
  courses_lines (scan_template content) = before ++ course_line C Diff T :: after ->
  no_rbrace C -> no_rbrace Diff -> no_rbrace T ->
  In (lower (strip Diff)) [py "easy"; py "medium"; py "hard"] ->
  Forall (other_code (strip C)) after ->
  exists d,
    Difficulty_value d = lower (strip Diff) /\
    let entry := {| difficulty := d; topic := or_None (strip T) |} in
    course_of_line (course_line C Diff T) = Ok (strip C, entry) /\
    (forall pt, parse_template content = Ok pt ->
                dict_get (strip C) (courses pt) = Some entry) /\
    (forall cr,
       strip (join [NL] (body_lines (scan_template content))) <> [] ->
       criteria_loop [] (criteria_lines (scan_template content)) = Ok cr ->
       Forall valid_course (before ++ after) ->
       exists pt, parse_template content = Ok pt /\
                  dict_get (strip C) (courses pt) = Some entry).
Proof.
  intros Hlines HC HD HT Hin Hafter.
  apply Difficulty_of_value_In in Hin as [d Hd]. exists d.
  split; [now apply Difficulty_value_of|]. intro entry.
  assert (Hline : course_of_line (course_line C Diff T) = Ok (strip C, entry))
    by now apply course_of_line_form.
  assert (Hpart : forall pt, parse_template content = Ok pt ->
                             dict_get (strip C) (courses pt) = Some entry).
  { intros pt Hpt. apply parse_template_inv in Hpt as [_ [_ [_ [_ Hcs]]]].
    rewrite Hlines in Hcs.
    now destruct (@courses_loop_last _ _ _ _ _ _ Hcs Hline Hafter). }
  split; [assumption|]. split; [assumption|].
  intros cr Hbody Hcr Hvalid.
  destruct (@courses_loop_valid (before ++ course_line C Diff T :: after))
    as [cs Hcs].
  { apply Forall_insert; [assumption|]. now exists (strip C, entry). }
  rewrite <- Hlines in Hcs.
  eexists. split; [apply (@parse_template_ok content _ _ Hbody Hcr Hcs)|].
  apply Hpart. apply (@parse_template_ok content _ _ Hbody Hcr Hcs).
Qed.

Lemma course_line_entry_witness :
  courses_lines (scan_template courses_template) =
    [py "\course{ PHY200 }{hard}{Mechanics}"] ++
    course_line (py "  CS101  ") (py "  MeDiuM ") (py "  Week 3  ") ::
    [py "\course{MA100}{EASY}{ }"] /\
  exists d,
    Difficulty_value d = py "medium" /\
    exists pt, parse_template courses_template = Ok pt /\
      dict_get (py "CS101") (courses pt) =
        Some {| difficulty := d; topic := Some (py "Week 3") |}.
Proof.
  split; [reflexivity|].
  destruct (@course_line_entry courses_template
              [py "\course{ PHY200 }{hard}{Mechanics}"]
              (py "  CS101  ") (py "  MeDiuM ") (py "  Week 3  ")
              [py "\course{MA100}{EASY}{ }"]
              eq_refl eq_refl eq_refl eq_refl
              ltac:(vm_compute; tauto)
              ltac:(repeat constructor; intros c a H; vm_compute in H;
                    inversion H; discriminate))
    as [d [Hd [_ [_ Hok]]]].
  exists d. split; [exact Hd|].
  apply (Hok []).
  - vm_compute. discriminate.
  - reflexivity.
  - repeat constructor; eexists; reflexivity.
Defined.

(** C6: when two candidate lines of the courses section are valid and carry
    the same code, the later of them being the last line with that code,
    the mapping returned holds exactly one entry for the code, with the
    difficulty and topic of the later line; no error comes from the
    repetition: the parse returns once the body is not empty and the other
    lines are valid. *)
Theorem duplicate_course_last_wins (content : str) (l1 : list str) (raw1 : str)
    (l2 : list str) (raw2 : str) (l3 : list str) (C : str)
    (a1 a2 : CourseAssignment) :
  courses_lines (scan_template content) = l1 ++ raw1 :: l2 ++ raw2 :: l3 ->
  course_of_line raw1 = Ok (C, a1) ->
  course_of_line raw2 = Ok (C, a2) ->
  Forall (other_code C) l3 ->
  (forall pt, parse_template content = Ok pt ->
              entries_for C (courses pt) = 1 /\
              dict_get C (courses pt) = Some a2) /\
  (forall cr,
     strip (join [NL] (body_lines (scan_template content))) <> [] ->
     criteria_loop [] (criteria_lines (scan_template content)) = Ok cr ->
     Forall valid_course (l1 ++ l2 ++ l3) ->
     exists pt, parse_template content = Ok pt /\
                entries_for C (courses pt) = 1 /\
                dict_get C (courses pt) = Some a2).
Proof.
  intros Hlines H1 H2 Hlast.
  assert (Hpart : forall pt, parse_template content = Ok pt ->
                             entries_for C (courses pt) = 1 /\
                             dict_get C (courses pt) = Some a2).
  { intros pt Hpt. apply parse_template_inv in Hpt as [_ [_ [_ [_ Hcs]]]].
    rewrite Hlines in Hcs.
    replace (l1 ++ raw1 :: l2 ++ raw2 :: l3)
      with ((l1 ++ raw1 :: l2) ++ raw2 :: l3) in Hcs
      by (rewrite <- app_assoc; reflexivity).
    destruct (@courses_loop_last _ _ _ _ _ _ Hcs H2 Hlast). auto. }
  split; [assumption|].
  intros cr Hbody Hcr Hvalid.
  destruct (@courses_loop_valid (l1 ++ raw1 :: l2 ++ raw2 :: l3)) as [cs Hcs].
  { apply Forall_insert; [|now exists (C, a1)].
    apply Forall_app in Hvalid as [V1 V23].
    apply Forall_app. split; [assumption|].
    apply Forall_insert; [assumption|now exists (C, a2)]. }
  rewrite <- Hlines in Hcs.
  eexists. split; [apply (@parse_template_ok content _ _ Hbody Hcr Hcs)|].
  apply Hpart. apply (@parse_template_ok content _ _ Hbody Hcr Hcs).
Qed.

Lemma duplicate_course_last_wins_witness :
  exists pt, parse_template duplicate_course_template = Ok pt /\
    entries_for (py "A") (courses pt) = 1 /\
    dict_get (py "A") (courses pt) =
      Some {| difficulty := HARD; topic := Some (py "Y") |}.
Proof.
  apply (proj2 (@duplicate_course_last_wins duplicate_course_template
                  [] (py "\course{A}{easy}{X}") [] (py "\course{A}{hard}{Y}") []
                  (py "A")
                  {| difficulty := EASY; topic := Some (py "X") |}
                  {| difficulty := HARD; topic := Some (py "Y") |}
                  eq_refl eq_refl eq_refl ltac:(constructor)) []).
  - vm_compute. discriminate.
  - reflexivity.
  - constructor.
Defined.

(* ================================================================== *)
(** * Properties of the item built by [item_add]                       *)
(* ================================================================== *)

Lemma validate_courses_assignment (cs : dict CourseAssignment) :
  cs <> [] ->
  validate_courses (map (fun kv => (fst kv, VCourseAssignment (snd kv))) cs) = None.
Proof.
  destruct cs as [|[k a] cs]; [congruence|]. reflexivity.
Qed.

Lemma new_item_Some (fresh_id : str) (parsed : ParsedTemplate) (it : Item) :
  new_item fresh_id parsed = Some it ->
  courses parsed = [] /\
  item_points it = sum_points (item_criteria it) /\
  item_criteria it = criteria parsed /\ item_body it = body parsed /\
  item_solution it = solution parsed /\ item_id it = fresh_id.
Proof.
  unfold new_item, Item_new. destruct (courses parsed) as [|[k a] cs] eqn:E.
  - simpl. intro H. inversion H; subst; simpl. repeat split.
  - rewrite validate_courses_assignment by discriminate. discriminate.
Qed.

(** C5: on the scenario of the specification the template is parsed as the
    claim says (two criteria in order, worth 4 and 6, one course CS101 with
    difficulty easy and topic Algebra, no solution), and the sum of the
    points is 10; but no [Item] is built from it: the field [courses] of
    [Item] is declared with values of type [Difficulty], and the course
    assignments of the parsed template are refused by its validation.  So it
    is for every parsed template with a course; an [Item] that is built has
    the sum of the points of its criteria as its points. *)
Theorem end_to_end_item_refused :
  parse_template end_to_end_template =
    Ok {| body := py "Solve $x^2=4$.";
          criteria := [ {| description := py "Correct"; points := 4 |};
                        {| description := py "Clear"; points := 6 |} ];
          solution := None;
          courses := [ (py "CS101",
                        {| difficulty := EASY; topic := Some (py "Algebra") |}) ] |} /\
  sum_points [ {| description := py "Correct"; points := 4 |};
               {| description := py "Clear"; points := 6 |} ] = 10%Z /\
  (forall fresh_id, item_add_record fresh_id end_to_end_template = ValidationError) /\
  (forall fresh_id parsed, courses parsed <> [] -> new_item fresh_id parsed = None) /\
  (forall fresh_id parsed it,
     new_item fresh_id parsed = Some it ->
     item_points it = sum_points (item_criteria it)).
Proof.
  split; [reflexivity|]. split; [reflexivity|]. split; [reflexivity|]. split.
  - intros fresh_id parsed H. unfold new_item, Item_new.
    now rewrite validate_courses_assignment.
  - intros fresh_id parsed it H. now apply new_item_Some in H.
Qed.

(* ================================================================== *)
(** * Properties of the store                                          *)
(* ================================================================== *)

Lemma Difficulty_of_value_value (d : Difficulty) :
  Difficulty_of_value (Difficulty_value d) = Some d.
Proof. destruct d; reflexivity. Qed.

Lemma validate_courses_dump (cs : dict Difficulty) :
  validate_dict validate_Difficulty_node
    (map (fun kv => (fst kv, Str (Difficulty_value (snd kv)))) cs) = Some cs.
Proof.
  induction cs as [|[k d] cs IH]; simpl; [reflexivity|].
  simpl in IH. now rewrite Difficulty_of_value_value, IH.
Qed.

Lemma validate_criteria_dump (l : list Criterion) :
  validate_list validate_Criterion (map dump_Criterion l) = Some l.
Proof.
  induction l as [|[d p] l IH]; simpl; [reflexivity|].
  simpl in IH. now rewrite IH.
Qed.

Lemma validate_optional_dump (o : option str) :
  validate_optional_str (dump_optional o) = Some o.
Proof. destruct o; reflexivity. Qed.

(** Validation reads back what [model_dump] wrote. *)
Lemma model_validate_dump (fresh_id : str) (it : Item) :
  model_validate fresh_id (model_dump it) = Some it.
Proof.
  destruct it as [i b p cs cr so].
  unfold model_validate, model_dump, field_or.
  cbn [dict_get str_eqb py list_ascii_of_string Ascii.eqb Bool.eqb andb
       item_id item_body item_points item_courses item_criteria item_solution].
  cbn [validate_str validate_int validate_courses_node validate_criteria].
  now rewrite validate_courses_dump, validate_criteria_dump, validate_optional_dump.
Qed.

Section StorageRoundTrip.

Variable text : Type.
Variable yaml_dump : node -> text.
Variable yaml_safe_load : text -> option node.
Variable path : Type.
Variable path_eq_dec : forall p q : path, {p = q} + {p <> q}.
Variable joinpath : path -> str -> path.


End StorageRoundTrip.


(* ================================================================== *)
(** * Further properties: the line patterns                            *)
(* ================================================================== *)

Lemma expect_inv (lit s rest : str) : expect lit s = Some rest -> s = lit ++ rest.
Proof.
  revert s; induction lit as [|c lit IH]; intros s H; simpl in *.
  - now inversion H.
  - destruct s as [|x s]; [discriminate|].
    destruct (Ascii.eqb x c) eqn:E; [|discriminate].
    apply Ascii.eqb_eq in E. subst x. f_equal. now apply IH.
Qed.

Lemma brace_group_inv (s g rest : str) :
  brace_group s = Some (g, rest) ->
  s = py "{" ++ g ++ py "}" ++ rest /\ no_rbrace g.
Proof.
  unfold brace_group. intro H.
  destruct (expect (py "{") s) as [s1|] eqn:E1; [|discriminate].
  destruct (span not_rbrace s1) as [g' s2] eqn:E2.
  destruct (expect (py "}") s2) as [s3|] eqn:E3; [|discriminate].
  inversion H; subst g' s3.
  apply expect_inv in E1, E3. apply span_spec in E2 as [E2 [Hg _]].
  subst. split; [reflexivity|assumption].
Qed.

Lemma space_not_backslash (c : ascii) : is_space c = true -> Ascii.eqb c BACKSLASH = false.
Proof. by_char c. Qed.

Lemma space_not_lbrace (c : ascii) : is_space c = true -> Ascii.eqb c "{"%char = false.
Proof. by_char c. Qed.

Lemma brace_group_blank (r : str) : blank r -> brace_group r = None.
Proof.
  unfold blank, brace_group. destruct r as [|c r]; [reflexivity|].
  simpl. intro H. apply andb_true_iff in H as [Hc _].
  now rewrite (space_not_lbrace c Hc).
Qed.

(** X1: the criterion pattern matches exactly the lines made of blanks,
    [\criterion{g1}{g2}] with no closing brace inside [g1] and [g2], and
    blanks; the groups it returns are [g1] and [g2]. *)
Theorem criterion_pattern_exact (raw g1 g2 : str) :
  _CRITERION_RE raw = Some (g1, g2) <->
  exists l r, raw = l ++ criterion_line g1 g2 ++ r /\ blank l /\ blank r /\
              no_rbrace g1 /\ no_rbrace g2.
Proof.
  split.
  - unfold _CRITERION_RE. intro H.
    destruct (dropwhile_split is_space raw) as [l [El Hl]].
    destruct (expect (py "\criterion") (dropwhile is_space raw)) as [s1|] eqn:E0;
      [|discriminate].
    destruct (brace_group s1) as [[a s2]|] eqn:E1; [|discriminate].
    destruct (brace_group s2) as [[b s3]|] eqn:E2; [|discriminate].
    destruct (forallb is_space s3) eqn:E3; [|discriminate].
    inversion H; subst a b.
    apply expect_inv in E0. apply brace_group_inv in E1 as [E1 H1].
    apply brace_group_inv in E2 as [E2 H2].
    exists l, s3. repeat split; try assumption.
    rewrite El, E0, E1, E2. unfold criterion_line.
    rewrite <- !app_assoc. reflexivity.
  - intros [l [r [-> [Hl [Hr [H1 H2]]]]]]. unfold _CRITERION_RE, criterion_line.
    rewrite (dropwhile_app_all _ _ _ Hl), <- !app_assoc.
    change (py "\criterion" ++ ?x) with (BACKSLASH :: py "criterion" ++ x).
    rewrite dropwhile_nonspace by reflexivity.
    change (BACKSLASH :: py "criterion" ++ ?x) with (py "\criterion" ++ x).
    rewrite expect_app, (brace_group_app _ H1), (brace_group_app _ H2).
    unfold blank in Hr. now rewrite Hr.
Qed.

(** X2: the course pattern matches exactly the lines made of blanks,
    [\course{g1}{g2}{g3}] with no closing brace inside the three groups,
    and blanks; the groups it returns are [g1], [g2] and [g3]. *)
Theorem course_pattern_exact (raw g1 g2 g3 : str) :
  _COURSE_RE raw = Some (g1, g2, g3) <->
  exists l r, raw = l ++ course_line g1 g2 g3 ++ r /\ blank l /\ blank r /\
              no_rbrace g1 /\ no_rbrace g2 /\ no_rbrace g3.
Proof.
  split.
  - unfold _COURSE_RE. intro H.
    destruct (dropwhile_split is_space raw) as [l [El Hl]].
    destruct (expect (py "\course") (dropwhile is_space raw)) as [s1|] eqn:E0;
      [|discriminate].
    destruct (brace_group s1) as [[a s2]|] eqn:E1; [|discriminate].
    destruct (brace_group s2) as [[b s3]|] eqn:E2; [|discriminate].
    destruct (brace_group s3) as [[c s4]|] eqn:E3; [|discriminate].
    destruct (forallb is_space s4) eqn:E4; [|discriminate].
    inversion H; subst a b c.
    apply expect_inv in E0. apply brace_group_inv in E1 as [E1 H1].
    apply brace_group_inv in E2 as [E2 H2].
    apply brace_group_inv in E3 as [E3 H3].
    exists l, s4. repeat split; try assumption.
    rewrite El, E0, E1, E2, E3. unfold course_line.
    rewrite <- !app_assoc. reflexivity.
  - intros [l [r [-> [Hl [Hr [H1 [H2 H3]]]]]]]. unfold _COURSE_RE, course_line.
    rewrite (dropwhile_app_all _ _ _ Hl), <- !app_assoc.
    change (py "\course" ++ ?x) with (BACKSLASH :: py "course" ++ x).
    rewrite dropwhile_nonspace by reflexivity.
    change (BACKSLASH :: py "course" ++ ?x) with (py "\course" ++ x).
    rewrite expect_app, (brace_group_app _ H1), (brace_group_app _ H2),
      (brace_group_app _ H3).
    unfold blank in Hr. now rewrite Hr.
Qed.

(* ================================================================== *)
(** * Further properties: the errors of [parse_template]               *)
(* ================================================================== *)

Lemma courses_loop_first_error (good : list str) (raw : str) (rest : list str)
    (e : TemplateParseError) :
  Forall valid_course good -> course_of_line raw = Raise e ->
  forall acc, courses_loop acc (good ++ raw :: rest) = Raise e.
Proof.
  induction 1 as [|g good [[c a] Hg] _ IH]; intros He acc; simpl.
  - now rewrite He.
  - rewrite Hg. now apply IH.
Qed.

Lemma criteria_loop_error_inv (raws : list str) (e : TemplateParseError) :
  forall acc, criteria_loop acc raws = Raise e ->
  exists good raw rest, raws = good ++ raw :: rest /\
                        Forall valid_criterion good /\
                        criterion_of_line raw = Raise e.
Proof.
  induction raws as [|x raws IH]; intros acc H; simpl in H; [discriminate|].
  destruct (criterion_of_line x) as [c|e'] eqn:E.
  - apply IH in H as [good [raw [rest [-> [Hg Hr]]]]].
    exists (x :: good), raw, rest. repeat split; try assumption.
    constructor; [now exists c|assumption].
  - inversion H; subst e'. exists [], x, raws. repeat split; [constructor|assumption].
Qed.

Lemma courses_loop_error_inv (raws : list str) (e : TemplateParseError) :
  forall acc, courses_loop acc raws = Raise e ->
  exists good raw rest, raws = good ++ raw :: rest /\
                        Forall valid_course good /\
                        course_of_line raw = Raise e.
Proof.
  induction raws as [|x raws IH]; intros acc H; simpl in H; [discriminate|].
  destruct (course_of_line x) as [[c a]|e'] eqn:E.
  - apply IH in H as [good [raw [rest [-> [Hg Hr]]]]].
    exists (x :: good), raw, rest. repeat split; try assumption.
    constructor; [now exists (c, a)|assumption].
  - inversion H; subst e'. exists [], x, raws. repeat split; [constructor|assumption].
Qed.

Lemma parse_template_courses_error (content : str) (cr : list Criterion)
    (e : TemplateParseError) :
  let st := scan_template content in
  strip (join [NL] (body_lines st)) <> [] ->
  criteria_loop [] (criteria_lines st) = Ok cr ->
  courses_loop [] (courses_lines st) = Raise e ->
  parse_template content = Raise e.
Proof.
  intros st Hb Hcr Hcs. unfold parse_template. fold st.
  destruct (strip (join [NL] (body_lines st))) as [|c b]; [congruence|].
  now rewrite Hcr, Hcs.
Qed.

Lemma message_InvalidDifficulty (d c : str) :
  contains (message (InvalidDifficulty d c)) (repr d) = true /\
  contains (message (InvalidDifficulty d c)) (repr c) = true.
Proof.
  unfold message. split.
  - apply contains_app.
  - rewrite (app_assoc (repr d)), (app_assoc (py "Invalid difficulty ")).
    apply contains_app.
Qed.

(** X3: with a body that is not empty and criteria that are all valid, the
    first candidate line of the courses section that is not a valid course
    decides the error.  If it does not match the pattern, the error is the
    bad-course-line error for that line; if it matches and its difficulty,
    stripped and lower-cased, is not a value of [Difficulty], the error is
    the invalid-difficulty error carrying that lower-cased text and the
    stripped code, and its message contains the [repr] of both. *)
Theorem course_errors (content : str) (cr : list Criterion) (good : list str)
    (raw : str) (rest : list str) :
  strip (join [NL] (body_lines (scan_template content))) <> [] ->
  criteria_loop [] (criteria_lines (scan_template content)) = Ok cr ->
  courses_lines (scan_template content) = good ++ raw :: rest ->
  Forall valid_course good ->
  (_COURSE_RE raw = None ->
   parse_template content = Raise (BadCourseLine raw) /\
   contains (message (BadCourseLine raw)) (repr raw) = true) /\
  (forall g1 g2 g3,
     _COURSE_RE raw = Some (g1, g2, g3) ->
     Difficulty_of_value (lower (strip g2)) = None ->
     parse_template content =
       Raise (InvalidDifficulty (lower (strip g2)) (strip g1)) /\
     contains (message (InvalidDifficulty (lower (strip g2)) (strip g1)))
              (repr (lower (strip g2))) = true /\
     contains (message (InvalidDifficulty (lower (strip g2)) (strip g1)))
              (repr (strip g1)) = true).
Proof.
  intros Hbody Hcr Hlines Hgood. split.
  - intro Hre. split; [|apply contains_app].
    apply (@parse_template_courses_error content cr _ Hbody Hcr).
    rewrite Hlines. apply courses_loop_first_error; [assumption|].
    unfold course_of_line. now rewrite Hre.
  - intros g1 g2 g3 Hre Hd. split; [|apply message_InvalidDifficulty].
    apply (@parse_template_courses_error content cr _ Hbody Hcr).
    rewrite Hlines. apply courses_loop_first_error; [assumption|].
    unfold course_of_line. now rewrite Hre, Hd.
Qed.

Lemma course_errors_witness :
  parse_template invalid_difficulty_template = Raise (InvalidDifficulty (py "impossible") (py "CS101")) /\
  message (InvalidDifficulty (py "impossible") (py "CS101")) =
    py "Invalid difficulty 'impossible' for course 'CS101' " ++ EM_DASH ++
    py " must be one of: easy, hard, medium".
Proof.
  split; [|reflexivity].
  apply (proj2 (@course_errors invalid_difficulty_template [] [py "\course{MA100}{easy}{}"]
                  (py "\course{ CS101 }{ IMPOSSIBLE }{}") []
                  ltac:(vm_compute; discriminate) eq_refl eq_refl
                  ltac:(repeat constructor; eexists; reflexivity))
           (py " CS101 ") (py " IMPOSSIBLE ") []); reflexivity.
Defined.

(** X4: a course line of the form with two arguments, [\course{C}{D}] with
    no closing brace inside [C] and [D], blanks around it or not, matches
    neither pattern of the courses section: the loop raises the
    bad-course-line error for it, whatever [D] is. *)
Theorem two_argument_course_rejected (l C D r : str) :
  no_rbrace C -> no_rbrace D -> blank l -> blank r ->
  _COURSE_RE (l ++ course_line2 C D ++ r) = None /\
  course_of_line (l ++ course_line2 C D ++ r) =
    Raise (BadCourseLine (l ++ course_line2 C D ++ r)).
Proof.
  intros HC HD Hl Hr.
  assert (E : _COURSE_RE (l ++ course_line2 C D ++ r) = None).
  { unfold _COURSE_RE, course_line2.
    rewrite (dropwhile_app_all _ _ _ Hl), <- !app_assoc.
    change (py "\course" ++ ?x) with (BACKSLASH :: py "course" ++ x).
    rewrite dropwhile_nonspace by reflexivity.
    change (BACKSLASH :: py "course" ++ ?x) with (py "\course" ++ x).
    rewrite expect_app, (brace_group_app _ HC), (brace_group_app _ HD).
    now rewrite (brace_group_blank Hr). }
  split; [assumption|]. unfold course_of_line. now rewrite E.
Qed.

Lemma two_argument_course_rejected_witness :
  course_of_line (py "\course{CS101}{easy}") =
    Raise (BadCourseLine (py "\course{CS101}{easy}")).
Proof.
  apply (@two_argument_course_rejected [] (py "CS101") (py "easy") []); reflexivity.
Defined.

(** X5: the errors of [parse_template] come in a fixed order.  An error is
    the empty-body error, raised when the body is empty; or, the body not
    being empty, the error of the first criteria line that is not valid
    (bad line, or bad points); or, the body not being empty and every
    criteria line being valid, the error of the first course line that is
    not valid (bad line, or invalid difficulty). *)
Theorem parse_errors_in_order (content : str) (e : TemplateParseError) :
  parse_template content = Raise e ->
  let st := scan_template content in
  (e = EmptyBody /\ strip (join [NL] (body_lines st)) = []) \/
  (strip (join [NL] (body_lines st)) <> [] /\
   exists good raw rest,
     criteria_lines st = good ++ raw :: rest /\ Forall valid_criterion good /\
     criterion_of_line raw = Raise e /\
     (e = BadCriterionLine raw \/ exists g1 g2, e = BadPoints (strip g2) /\
                                        _CRITERION_RE raw = Some (g1, g2))) \/
  (strip (join [NL] (body_lines st)) <> [] /\
   Forall valid_criterion (criteria_lines st) /\
   exists good raw rest,
     courses_lines st = good ++ raw :: rest /\ Forall valid_course good /\
     course_of_line raw = Raise e /\
     (e = BadCourseLine raw \/
      exists g1 g2 g3, e = InvalidDifficulty (lower (strip g2)) (strip g1) /\
                       _COURSE_RE raw = Some (g1, g2, g3))).
Proof.
  intros H st. unfold parse_template in H. fold st in H.
  destruct (strip (join [NL] (body_lines st))) as [|c b] eqn:Eb.
  - left. inversion H. auto.
  - right.
    destruct (criteria_loop [] (criteria_lines st)) as [cr|e'] eqn:Ecr.
    + right. split; [discriminate|]. split.
      * apply criteria_loop_inv in Ecr as [new [_ HF]].
        clear - HF. induction HF; constructor; [now exists y|assumption].
      * destruct (courses_loop [] (courses_lines st)) as [cs|e''] eqn:Ecs;
          [discriminate|].
        inversion H; subst e''.
        apply courses_loop_error_inv in Ecs as [good [raw [rest [E [Hg Hr]]]]].
        exists good, raw, rest. repeat split; try assumption.
        unfold course_of_line in Hr.
        destruct (_COURSE_RE raw) as [[[g1 g2] g3]|]; [|left; now inversion Hr].
        destruct (Difficulty_of_value (lower (strip g2))); [discriminate|].
        right. exists g1, g2, g3. now inversion Hr.
    + left. split; [discriminate|]. inversion H; subst e'.
      apply criteria_loop_error_inv in Ecr as [good [raw [rest [E [Hg Hr]]]]].
      exists good, raw, rest. repeat split; try assumption.
      unfold criterion_of_line in Hr.
      destruct (_CRITERION_RE raw) as [[g1 g2]|]; [|left; now inversion Hr].
      destruct (py_int (strip g2)); [discriminate|].
      right. exists g1, g2. now inversion Hr.
Qed.

Lemma parse_errors_in_order_witness :
  parse_template two_errors_template = Raise (BadPoints (py "four")) /\
  exists good raw rest,
    [py "\criterion{Good answer}{four}"] = good ++ raw :: rest /\
    criterion_of_line raw = Raise (BadPoints (py "four")).
Proof.
  split; [reflexivity|].
  destruct (@parse_errors_in_order two_errors_template (BadPoints (py "four")) eq_refl) as [[H _]|[[_ H]|[_ [_ H]]]].
  - discriminate H.
  - destruct H as [good [raw [rest [E [_ [Hr _]]]]]].
    exists good, raw, rest. split; [exact E|exact Hr].
  - destruct H as [good [raw [rest [_ [_ [Hr _]]]]]].
    exists [], (py "\criterion{Good answer}{four}"), []. split; reflexivity.
Defined.

(* ================================================================== *)
(** * Further properties: what [parse_template] returns                *)
(* ================================================================== *)

Lemma trimmed_app (a m b : str) :
  a <> [] -> trimmed a -> b <> [] -> trimmed b -> trimmed (a ++ m ++ b).
Proof.
  intros Ha [Ha1 _] Hb [_ Hb2]. split.
  - now apply dropwhile_fixed_app.
  - rewrite !rev_app_distr, <- app_assoc. apply dropwhile_fixed_app; [|assumption].
    intro E. apply (f_equal (@List.length ascii)) in E. rewrite length_rev in E.
    destruct b; [congruence|discriminate].
Qed.

Lemma kept_line_nonempty (l : str) : kept_line l -> l <> [].
Proof. intros [_ [H _]] E. subst l. discriminate. Qed.

Lemma join_kept_lines (ls : list str) :
  Forall kept_line ls -> ls <> [] ->
  join [NL] ls <> [] /\ trimmed (join [NL] ls).
Proof.
  induction 1 as [|x ls Hx Hls IH]; intro Hne; [congruence|].
  destruct ls as [|y ls].
  - simpl. split; [now apply kept_line_nonempty|apply Hx].
  - destruct IH as [IH1 IH2]; [discriminate|].
    change (join [NL] (x :: y :: ls)) with (x ++ [NL] ++ join [NL] (y :: ls)).
    split.
    + apply kept_line_nonempty in Hx. destruct x; [congruence|discriminate].
    + apply trimmed_app; try assumption; [now apply kept_line_nonempty|apply Hx].
Qed.

(** X6: the body [parse_template] returns is never empty and has no blank
    at either end.  The solution it returns is absent exactly when the
    solution section has no candidate line; otherwise it is the candidate
    lines joined with newlines, as they are: it is never the empty string
    and has no blank at either end. *)
Theorem parsed_body_and_solution (content : str) (pt : ParsedTemplate) :
  parse_template content = Ok pt ->
  let st := scan_template content in
  body pt <> [] /\ trimmed (body pt) /\
  (solution pt = None <-> solution_lines st = []) /\
  (forall s, solution pt = Some s ->
             s = join [NL] (solution_lines st) /\ s <> [] /\ trimmed s).
Proof.
  intros H st. apply parse_template_inv in H as [Hb [Hne [Hs _]]]. fold st in Hb, Hs.
  split; [assumption|]. split; [rewrite Hb; apply trimmed_strip|].
  destruct (scan_template_clean content) as [_ [Hk _]]. fold st in Hk.
  destruct (solution_lines st) as [|x ls] eqn:E.
  - rewrite Hs. simpl. split; [tauto|discriminate].
  - destruct (join_kept_lines Hk) as [J1 J2]; [discriminate|].
    rewrite (strip_trimmed J2) in Hs. rewrite Hs.
    destruct (join [NL] (x :: ls)) as [|c j] eqn:Ej; [congruence|]. simpl.
    split; [split; discriminate|].
    intros s Hsome. inversion Hsome; subst s.
    split; [reflexivity|split; [discriminate|assumption]].
Qed.

Lemma parsed_body_and_solution_witness :
  exists pt, parse_template wrapped_template = Ok pt /\
    solution pt = Some (py "First step.
Second step.") /\
    forall s, solution pt = Some s ->
      s = join [NL] (solution_lines (scan_template wrapped_template)) /\
      s <> [] /\ trimmed s.
Proof.
  eexists. split; [reflexivity|]. split; [reflexivity|].
  apply (@parsed_body_and_solution wrapped_template _ eq_refl).
Defined.

Lemma dict_get_In {V} (k : str) (v : V) (d : dict V) :
  dict_get k d = Some v -> In (k, v) d.
Proof.
  induction d as [|[k' v'] d IH]; simpl; [discriminate|].
  destruct (str_eqb k' k) eqn:E.
  - intro H. inversion H; subst. apply str_eqb_eq in E. subst. now left.
  - intro H. right. now apply IH.
Qed.

Lemma In_dict_set {V} (kv : str * V) (k : str) (v : V) (d : dict V) :
  In kv (dict_set k v d) -> In kv d \/ kv = (k, v).
Proof.
  induction d as [|[k' v'] d IH]; simpl.
  - intros [<-|[]]. now right.
  - destruct (str_eqb k' k) eqn:E; simpl.
    + apply str_eqb_eq in E. subst k'. intros [<-|H]; [now right|left; now right].
    + intros [<-|H]; [left; now left|]. destruct (IH H); [left; now right|now right].
Qed.

Lemma In_set_all {V} (kv : str * V) (entries : list (str * V)) :
  forall d, In kv (set_all entries d) -> In kv d \/ In kv entries.
Proof.
  induction entries as [|[k v] entries IH]; intros d H; [now left|].
  change (set_all ((k, v) :: entries) d) with (set_all entries (dict_set k v d)) in H.
  apply IH in H as [H|H]; [|right; now right].
  apply In_dict_set in H as [H|H]; [now left|right; now left].
Qed.

Lemma length_dict_set {V} (k : str) (v : V) (d : dict V) :
  List.length (dict_set k v d) <= S (List.length d).
Proof.
  induction d as [|[k' v'] d IH]; simpl; [lia|].
  destruct (str_eqb k' k); simpl; lia.
Qed.

Lemma length_set_all {V} (entries : list (str * V)) :
  forall d, List.length (set_all entries d) <= List.length d + List.length entries.
Proof.
  induction entries as [|[k v] entries IH]; intro d; [simpl; lia|].
  change (set_all ((k, v) :: entries) d) with (set_all entries (dict_set k v d)).
  specialize (IH (dict_set k v d)).
  generalize (length_dict_set k v d). simpl. lia.
Qed.

Lemma Forall2_In_r {A B} (R : A -> B -> Prop) (l : list A) (l' : list B) (b : B) :
  Forall2 R l l' -> In b l' -> exists a, In a l /\ R a b.
Proof.
  induction 1 as [|x y l l' Hxy _ IH]; simpl; [contradiction|].
  intros [<-|H].
  - exists x. auto.
  - destruct (IH H) as [a [Ha HR]]. exists a. auto.
Qed.

Lemma course_of_line_key (raw k : str) (a : CourseAssignment) :
  course_of_line raw = Ok (k, a) -> trimmed k.
Proof.
  unfold course_of_line.
  destruct (_COURSE_RE raw) as [[[g1 g2] g3]|]; [|discriminate].
  destruct (Difficulty_of_value (lower (strip g2))); [|discriminate].
  intro H. inversion H; subst. apply trimmed_strip.
Qed.

(** X7: when [parse_template] returns, the criteria are the criteria of
    the candidate lines of the criteria section, one for each line, in the
    order of the lines; in the courses no code is stored twice, there are
    at most as many entries as candidate lines, every entry is the code and
    the assignment of one of these lines, and the codes have no blank at
    either end. *)
Theorem parsed_criteria_and_courses (content : str) (pt : ParsedTemplate) :
  parse_template content = Ok pt ->
  let st := scan_template content in
  Forall2 (fun raw c => criterion_of_line raw = Ok c)
          (criteria_lines st) (criteria pt) /\
  List.length (criteria pt) = List.length (criteria_lines st) /\
  unique (courses pt) /\
  List.length (courses pt) <= List.length (courses_lines st) /\
  (forall k a, dict_get k (courses pt) = Some a ->
               exists raw, In raw (courses_lines st) /\
                           course_of_line raw = Ok (k, a)) /\
  Forall (fun kv => trimmed (fst kv)) (courses pt).
Proof.
  intros H st. apply parse_template_inv in H as [_ [_ [_ [Hcr Hcs]]]].
  fold st in Hcr, Hcs.
  apply criteria_loop_inv in Hcr as [new [E HF]]. simpl in E. subst new.
  apply courses_loop_inv in Hcs as [entries [HF2 E2]].
  assert (Hprov : forall kv, In kv (courses pt) ->
                    exists raw, In raw (courses_lines st) /\
                                course_of_line raw = Ok kv).
  { intros kv Hin. rewrite E2 in Hin.
    apply In_set_all in Hin as [[]|Hin].
    exact (@Forall2_In_r _ _ _ _ _ kv HF2 Hin). }
  split; [assumption|]. split; [symmetry; now apply Forall2_length with (1 := HF)|].
  split; [rewrite E2; apply unique_set_all, unique_nil|].
  split.
  { rewrite E2. generalize (length_set_all entries (@nil (str * CourseAssignment))).
    rewrite (Forall2_length HF2). simpl. lia. }
  split.
  - intros k a Hget. apply Hprov. now apply dict_get_In.
  - apply Forall_forall. intros [k a] Hin.
    destruct (Hprov _ Hin) as [raw [_ Hraw]]. simpl.
    now apply course_of_line_key with raw a.
Qed.

Lemma parsed_criteria_and_courses_witness :
  exists pt, parse_template duplicate_course_template = Ok pt /\
    List.length (courses pt) <= 2 /\ unique (courses pt).
Proof.
  eexists. split; [reflexivity|].
  destruct (@parsed_criteria_and_courses duplicate_course_template _ eq_refl)
    as [_ [_ [Hu [Hl _]]]].
  split; [exact Hl|exact Hu].
Defined.

(* ================================================================== *)
(** * Further properties: the lines that do not count                  *)
(* ================================================================== *)

Lemma parse_template_scan (c1 c2 : str) :
  scan_template c1 = scan_template c2 -> parse_template c1 = parse_template c2.
Proof. intro H. unfold parse_template. now rewrite H. Qed.

Lemma scan_outside_region (region : list str) (st : scan) :
  Forall (fun l => ~ is_marker l) region -> state st = OUTSIDE ->
  scan_lines st region = st.
Proof.
  intros Hr Hs. rewrite (scan_region Hr). destruct st as [s b so cr co].
  simpl in *. subst s. simpl. now rewrite !app_nil_r.
Qed.

(** X8: the lines that stand outside every section and are no markers do
    not count: a template gives the same result, or the same error, with
    and without them. *)
Theorem outside_lines_ignored (c1 c2 : str) (a junk b : list str) :
  splitlines c1 = a ++ junk ++ b ->
  splitlines c2 = a ++ b ->
  state (scan_lines scan_start a) = OUTSIDE ->
  Forall (fun l => ~ is_marker l) junk ->
  scan_template c1 = scan_template c2 /\ parse_template c1 = parse_template c2.
Proof.
  intros H1 H2 Hs Hj.
  assert (E : scan_template c1 = scan_template c2).
  { unfold scan_template. rewrite H1, H2, !scan_lines_app.
    now rewrite (scan_outside_region _ Hj Hs). }
  split; [assumption|now apply parse_template_scan].
Qed.

Lemma outside_lines_ignored_witness :
  parse_template wrapped_template = parse_template bare_template.
Proof.
  apply (@outside_lines_ignored wrapped_template bare_template
           [py "\documentclass{article}"; py "% @@BEGIN_BODY"; py "A question.";
            py "% @@END_BODY"]
           [py "\bigskip"; py "\criterion{Not in a section}{1}"]
           [py "% @@BEGIN_SOLUTION"; py "  First step."; []; py "% a comment";
            py "Second step."; py "% @@END_SOLUTION"; py "\end{document}"]).
  - reflexivity.
  - reflexivity.
  - reflexivity.
  - repeat constructor; vm_compute; intuition discriminate.
Defined.

Lemma strip_pad (l s r : str) : blank l -> blank r -> strip (l ++ s ++ r) = strip s.
Proof.
  intros Hl Hr. destruct (strip_split s) as [l' [r' [E [Hl' Hr']]]].
  rewrite E at 1.
  replace (l ++ (l' ++ strip s ++ r') ++ r) with ((l ++ l') ++ strip s ++ (r' ++ r))
    by (rewrite <- !app_assoc; reflexivity).
  apply strip_core; [| |apply trimmed_strip]; rewrite forallb_app.
  - unfold blank in Hl. now rewrite Hl, Hl'.
  - unfold blank in Hr. now rewrite Hr, Hr'.
Qed.

Lemma scan_line_same_stripped (st : scan) (x y : str) :
  same_stripped x y -> state st <> IN_BODY -> scan_line st x = scan_line st y.
Proof.
  unfold same_stripped, scan_line. intros E Hs. rewrite E.
  destruct (marker (strip y)); [reflexivity|].
  destruct (state st); congruence.
Qed.

Lemma scan_lines_same_stripped (xs ys : list str) :
  Forall2 same_stripped xs ys -> Forall not_begin_body xs ->
  forall st, state st <> IN_BODY -> scan_lines st xs = scan_lines st ys.
Proof.
  induction 1 as [|x y xs ys Hxy _ IH]; intros Hnb st Hs; [reflexivity|].
  inversion Hnb as [|? ? Hx Hxs]; subst.
  change (scan_lines st (x :: xs)) with (scan_lines (scan_line st x) xs).
  change (scan_lines st (y :: ys)) with (scan_lines (scan_line st y) ys).
  rewrite <- (scan_line_same_stripped st Hxy Hs).
  apply IH; [assumption|].
  apply (scan_outside_body (lines := [x])); [now constructor|assumption].
Qed.

(** X9: outside the body the blanks at the two ends of a line do not count.
    Two templates with the same body region, whose other lines differ at
    most by such blanks (a line with blanks added at its ends is such a
    line), give the same result, or the same error. *)
Theorem indentation_ignored_outside_body (c1 c2 : str) (pre1 pre2 : list str)
    (b1 b2 : str) (region post1 post2 : list str) :
  splitlines c1 = pre1 ++ b1 :: region ++ post1 ->
  splitlines c2 = pre2 ++ b2 :: region ++ post2 ->
  Forall2 same_stripped pre1 pre2 -> same_stripped b1 b2 ->
  Forall2 same_stripped post1 post2 ->
  Forall not_begin_body pre1 -> marker (strip b1) = Some IN_BODY ->
  Forall (fun l => ~ is_marker l) region ->
  match post1 with [] => True | e :: _ => is_marker e end ->
  Forall not_begin_body post1 ->
  parse_template c1 = parse_template c2 /\
  (forall l s r, blank l -> blank r -> same_stripped (l ++ s ++ r) s).
Proof.
  intros H1 H2 Hpre Hb Hpost Hnb1 Hm Hregion Hhead Hnb2.
  split; [|intros l s r Hl Hr; now apply strip_pad].
  apply parse_template_scan. unfold scan_template. rewrite H1, H2.
  rewrite !scan_lines_app.
  rewrite <- (scan_lines_same_stripped Hpre Hnb1 scan_start) by discriminate.
  change (scan_lines ?st (b1 :: ?r)) with (scan_lines (scan_line st b1) r).
  change (scan_lines ?st (b2 :: ?r)) with (scan_lines (scan_line st b2) r).
  assert (Hm2 : marker (strip b2) = Some IN_BODY) by (now rewrite <- Hb).
  rewrite (scan_line_marker _ _ Hm), (scan_line_marker _ _ Hm2), !scan_lines_app.
  set (st := scan_lines (set_state IN_BODY (scan_lines scan_start pre1)) region).
  destruct Hpost as [|e1 e2 post1 post2 He Hpost]; [reflexivity|].
  inversion Hnb2 as [|? ? Hne Hnb2']; subst.
  apply marker_markers in Hhead.
  destruct (marker (strip e1)) as [s|] eqn:Em; [|congruence].
  change (scan_lines st (e1 :: post1)) with (scan_lines (scan_line st e1) post1).
  change (scan_lines st (e2 :: post2)) with (scan_lines (scan_line st e2) post2).
  assert (Em2 : marker (strip e2) = Some s) by (now rewrite <- He).
  rewrite (scan_line_marker _ _ Em), (scan_line_marker _ _ Em2).
  apply scan_lines_same_stripped; try assumption.
  simpl. unfold not_begin_body in Hne. congruence.
Qed.

Lemma indentation_ignored_outside_body_witness :
  parse_template indented_template = parse_template flush_template /\
  parse_template flush_template =
    Ok {| body := py "Kept as it is.";
          criteria := [ {| description := py "Correct"; points := 4 |} ];
          solution := None; courses := [] |}.
Proof.
  split; [|reflexivity].
  apply (@indentation_ignored_outside_body indented_template flush_template
           [] [] (py "   % @@BEGIN_BODY") (py "% @@BEGIN_BODY")
           [py "  Kept as it is."]
           (map py ["      % @@END_BODY"; "    % @@BEGIN_CRITERIA";
                    "      \criterion{Correct}{4}"; "  % @@END_CRITERIA"]%string)
           (map py ["% @@END_BODY"; "% @@BEGIN_CRITERIA";
                    "\criterion{Correct}{4}"; "% @@END_CRITERIA"]%string)).
  - reflexivity.
  - reflexivity.
  - constructor.
  - reflexivity.
  - repeat constructor.
  - constructor.
  - reflexivity.
  - repeat constructor; vm_compute; intuition discriminate.
  - vm_compute. tauto.
  - repeat constructor; vm_compute; discriminate.
Defined.

(* ================================================================== *)
(** * Further properties: the template                                 *)
(* ================================================================== *)

Lemma no_markers_checked (ls : list str) :
  forallb (fun l => match marker (strip l) with None => true | Some _ => false end)
          ls = true ->
  Forall (fun l => ~ is_marker l) ls.
Proof.
  intro H. apply Forall_forall. intros l Hl. apply not_marker.
  rewrite forallb_forall in H. specialize (H l Hl).
  now destruct (marker (strip l)).
Qed.

Lemma template_to_solution (st : scan) :
  scan_lines st (template_part 19 8) = set_state IN_SOLUTION st.
Proof. destruct st. vm_compute. reflexivity. Qed.

Lemma template_to_criteria (st : scan) :
  scan_lines st (template_part 28 8) = set_state IN_CRITERIA st.
Proof. destruct st. vm_compute. reflexivity. Qed.

Lemma template_to_courses (st : scan) :
  scan_lines st (template_part 37 8) = set_state IN_COURSES st.
Proof. destruct st. vm_compute. reflexivity. Qed.

Lemma template_to_end (st : scan) :
  scan_lines st (skipn 47 template_lines) = set_state OUTSIDE st.
Proof. destruct st. vm_compute. reflexivity. Qed.

(** X10: the template and the parser agree.  [ITEM_TEMPLATE] is its own
    lines with, between the four pairs of markers, its placeholder and its
    comment lines; and whatever lines without markers are put between the
    pairs of markers instead, the scan captures the lines put in the body as
    they are, and for the solution, the criteria and the courses the lines
    put there, stripped, without the blank and the comment lines: nothing
    of the surrounding template is captured. *)
Theorem template_regions (content : str) (B S K C : list str) :
  splitlines content = edited_template B S K C ->
  Forall (fun l => ~ is_marker l) B -> Forall (fun l => ~ is_marker l) S ->
  Forall (fun l => ~ is_marker l) K -> Forall (fun l => ~ is_marker l) C ->
  scan_template content =
    {| state := OUTSIDE; body_lines := B; solution_lines := filtered S;
       criteria_lines := filtered K; courses_lines := filtered C |} /\
  template_lines =
    edited_template (template_part 18 1) (template_part 27 1)
                    (template_part 36 1) (template_part 45 2).
Proof.
  intros H HB HS HK HC. split; [|vm_compute; reflexivity].
  unfold scan_template. rewrite H. unfold edited_template.
  rewrite scan_lines_app.
  replace (scan_lines scan_start (template_part 0 18))
    with (set_state IN_BODY scan_start) by (vm_compute; reflexivity).
  rewrite scan_lines_app, (scan_region HB).
  rewrite scan_lines_app, template_to_solution.
  rewrite scan_lines_app, (scan_region HS).
  rewrite scan_lines_app, template_to_criteria.
  rewrite scan_lines_app, (scan_region HK).
  rewrite scan_lines_app, template_to_courses.
  rewrite scan_lines_app, (scan_region HC).
  rewrite template_to_end. simpl. now rewrite !app_nil_r.
Qed.

Lemma template_regions_witness :
  scan_template ITEM_TEMPLATE =
    {| state := OUTSIDE;
       body_lines := [py "Write your question body here in \LaTeX{}."];
       solution_lines := []; criteria_lines := []; courses_lines := [] |} /\
  parse_template ITEM_TEMPLATE =
    Ok {| body := py "Write your question body here in \LaTeX{}.";
          criteria := []; solution := None; courses := [] |}.
Proof.
  destruct (@template_regions ITEM_TEMPLATE (template_part 18 1) (template_part 27 1)
              (template_part 36 1) (template_part 45 2)) as [H _].
  - vm_compute. reflexivity.
  - apply no_markers_checked. vm_compute. reflexivity.
  - apply no_markers_checked. vm_compute. reflexivity.
  - apply no_markers_checked. vm_compute. reflexivity.
  - apply no_markers_checked. vm_compute. reflexivity.
  - split; [|vm_compute; reflexivity].
    rewrite H. vm_compute. reflexivity.
Defined.

(* ================================================================== *)
(** * Further properties: [find_editor] and [open_editor]              *)
(* ================================================================== *)

Lemma split_from_nil (s : str) :
  forall cur, split_from cur s = [] -> cur = [] /\ blank s.
Proof.
  unfold blank. induction s as [|c s IH]; intros cur H; simpl in *.
  - destruct cur; [auto|discriminate].
  - destruct (is_space c) eqn:Ec.
    + destruct cur; [|discriminate]. destruct (IH _ H) as [_ Hs]. auto.
    + apply IH in H as [H _]. destruct cur; discriminate.
Qed.

Lemma split_strip_nonempty (s : str) : strip s <> [] -> split (strip s) <> [].
Proof.
  intros Hne E. apply split_from_nil in E as [_ Hb].
  destruct (strip s) as [|c r] eqn:Es; [congruence|].
  assert (Ht : trimmed (c :: r)) by (rewrite <- Es; apply trimmed_strip).
  apply trimmed_head in Ht. unfold blank in Hb. simpl in Hb.
  rewrite Ht in Hb. discriminate.
Qed.

Section EditorProperties.

Variable which : str -> option str.
Variable environ : str -> option str.

Lemma gui_loop_Some (names : list str) (cmd : list str) :
  gui_loop which names = Some cmd ->
  exists name, In name names /\ on_path which name = true /\
               cmd = [name; py "--new-window"; py "--wait"].
Proof.
  induction names as [|n names IH]; simpl; [discriminate|].
  destruct (on_path which n) eqn:E.
  - intro H. inversion H. exists n. auto.
  - intro H. destruct (IH H) as [name [Hin Hrest]]. exists name. auto.
Qed.

Lemma gui_loop_None (names : list str) :
  gui_loop which names = None <-> Forall (fun n => on_path which n = false) names.
Proof.
  induction names as [|n names IH]; simpl.
  - split; [constructor|reflexivity].
  - destruct (on_path which n) eqn:E.
    + split; [discriminate|]. intro H. inversion H; congruence.
    + rewrite IH. split; [now constructor|]. intro H. now inversion H.
Qed.

Lemma gui_loop_first (earlier : list str) (name : str) (later : list str) :
  Forall (fun n => on_path which n = false) earlier ->
  on_path which name = true ->
  gui_loop which (earlier ++ name :: later) =
    Some [name; py "--new-window"; py "--wait"].
Proof.
  induction 1 as [|n earlier Hn _ IH]; intro H; simpl.
  - now rewrite H.
  - rewrite Hn. now apply IH.
Qed.

Lemma env_loop_Some (vars : list str) (r : editor_found) :
  env_loop which environ vars = Some r ->
  exists env_var p0 rest,
    In env_var vars /\ env_command environ env_var = p0 :: rest /\
    on_path which p0 = true /\ r = Command (p0 :: rest).
Proof.
  induction vars as [|v vars IH]; simpl; [discriminate|].
  intro H.
  assert (Hrec : env_loop which environ vars = Some r ->
                 exists env_var p0 rest,
                   (v = env_var \/ In env_var vars) /\
                   env_command environ env_var = p0 :: rest /\
                   on_path which p0 = true /\ r = Command (p0 :: rest)).
  { intro H'. destruct (IH H') as [e [p0 [rest [Hin Hx]]]].
    exists e, p0, rest. auto. }
  destruct (strip match environ v with Some x => x | None => [] end)
    as [|c val] eqn:Ev; [now apply Hrec|].
  destruct (split (c :: val)) as [|p0 ps] eqn:Es.
  - exfalso. rewrite <- Ev in Es. revert Es. apply split_strip_nonempty.
    rewrite Ev. discriminate.
  - destruct (on_path which p0) eqn:Ep; [|now apply Hrec].
    inversion H; subst r. exists v, p0, ps. repeat split; auto.
    unfold env_command. now rewrite Ev.
Qed.

Lemma env_loop_None (vars : list str) :
  env_loop which environ vars = None <->
  Forall (fun v => usable which environ v = false) vars.
Proof.
  induction vars as [|v vars IH]; simpl.
  - split; [constructor|reflexivity].
  - assert (Hu : usable which environ v =
                 match split (strip match environ v with
                                    | Some x => x | None => [] end) with
                 | [] => false
                 | p0 :: _ => on_path which p0
                 end) by reflexivity.
    destruct (strip match environ v with Some x => x | None => [] end)
      as [|c val] eqn:Ev.
    + simpl in Hu. rewrite IH. split; [now constructor|]. intro H. now inversion H.
    + destruct (split (c :: val)) as [|p0 ps] eqn:Es.
      * exfalso. rewrite <- Ev in Es. revert Es. apply split_strip_nonempty.
        rewrite Ev. discriminate.
      * destruct (on_path which p0) eqn:Ep.
        -- split; [discriminate|]. intro H. inversion H; congruence.
        -- rewrite IH. split; [now constructor|]. intro H. now inversion H.
Qed.

(** X11: [find_editor] never fails on [parts[0]], and the first word of a
    command it returns names a program that [shutil.which] finds. *)
Theorem find_editor_command_on_path :
  find_editor which environ <> IndexError /\
  forall argv, find_editor which environ = Command argv ->
               exists p0 rest, argv = p0 :: rest /\ on_path which p0 = true.
Proof.
  unfold find_editor.
  destruct (gui_loop which _GUI_EDITORS) as [cmd|] eqn:Eg.
  - apply gui_loop_Some in Eg as [name [_ [Hp ->]]].
    split; [discriminate|]. intros argv H. inversion H. eauto.
  - destruct (env_loop which environ [py "VISUAL"; py "EDITOR"]) as [r|] eqn:Ee.
    + apply env_loop_Some in Ee as [v [p0 [rest [_ [_ [Hp ->]]]]]].
      split; [discriminate|]. intros argv H. inversion H. eauto.
    + destruct (on_path which (py "vi")) eqn:Ev.
      * split; [discriminate|]. intros argv H. inversion H. eauto.
      * split; discriminate.
Qed.

(** X12: the editors of [_GUI_EDITORS] come first, in their order: the
    first of them on the path is returned with the flags [--new-window] and
    [--wait], whatever the environment variables hold. *)
Theorem gui_editor_first (earlier : list str) (name : str) (later : list str) :
  _GUI_EDITORS = earlier ++ name :: later ->
  Forall (fun n => on_path which n = false) earlier ->
  on_path which name = true ->
  find_editor which environ = Command [name; py "--new-window"; py "--wait"].
Proof.
  intros E Hearlier Hname. unfold find_editor.
  now rewrite E, (@gui_loop_first earlier name later Hearlier Hname).
Qed.

(** X13: without an editor of [_GUI_EDITORS] on the path, [find_editor]
    returns the words of [VISUAL] when the first of them is on the path;
    otherwise the words of [EDITOR] when the first of them is on the path;
    otherwise [vi] when it is on the path; no flag is added.  It raises
    exactly when none of the editors of [_GUI_EDITORS], of these two
    programs and of [vi] is on the path. *)
Theorem editor_fallbacks :
  (Forall (fun n => on_path which n = false) _GUI_EDITORS ->
   (usable which environ (py "VISUAL") = true ->
    find_editor which environ = Command (env_command environ (py "VISUAL"))) /\
   (usable which environ (py "VISUAL") = false ->
    usable which environ (py "EDITOR") = true ->
    find_editor which environ = Command (env_command environ (py "EDITOR"))) /\
   (usable which environ (py "VISUAL") = false ->
    usable which environ (py "EDITOR") = false ->
    on_path which (py "vi") = true ->
    find_editor which environ = Command [py "vi"])) /\
  ((exists msg, find_editor which environ = NoEditor msg) <->
   Forall (fun n => on_path which n = false) _GUI_EDITORS /\
   usable which environ (py "VISUAL") = false /\
   usable which environ (py "EDITOR") = false /\
   on_path which (py "vi") = false).
Proof.
  assert (Henv : forall v rest,
            usable which environ v = true ->
            env_loop which environ (v :: rest) =
              Some (Command (env_command environ v))).
  { intros v rest Hu. unfold usable in Hu. unfold env_command. simpl.
    destruct (strip match environ v with Some x => x | None => [] end)
      as [|c val] eqn:Ev; [discriminate|].
    destruct (split (c :: val)) as [|p0 ps]; [discriminate|]. now rewrite Hu. }
  assert (Hskip : forall v rest,
            usable which environ v = false ->
            env_loop which environ (v :: rest) = env_loop which environ rest).
  { intros v rest Hu. unfold usable in Hu. simpl.
    destruct (strip match environ v with Some x => x | None => [] end)
      as [|c val] eqn:Ev; [reflexivity|].
    destruct (split (c :: val)) as [|p0 ps] eqn:Es.
    - exfalso. rewrite <- Ev in Es. revert Es. apply split_strip_nonempty.
      rewrite Ev. discriminate.
    - now rewrite Hu. }
  split.
  - intro Hg. apply gui_loop_None in Hg. unfold find_editor. rewrite Hg.
    split; [|split].
    + intro H1. now rewrite (Henv _ _ H1).
    + intros H1 H2. now rewrite (Hskip _ _ H1), (Henv _ _ H2).
    + intros H1 H2 H3. rewrite (Hskip _ _ H1), (Hskip _ _ H2). cbn [env_loop].
      now rewrite H3.
  - unfold find_editor. split.
    + intros [msg H].
      destruct (gui_loop which _GUI_EDITORS) as [cmd|] eqn:Eg; [discriminate|].
      apply gui_loop_None in Eg. split; [assumption|].
      destruct (env_loop which environ [py "VISUAL"; py "EDITOR"]) as [r|] eqn:Ee.
      * apply env_loop_Some in Ee as [v [p0 [rest [_ [_ [_ ->]]]]]]. discriminate.
      * apply env_loop_None in Ee.
        inversion Ee as [|? ? H1 Ee']; subst. inversion Ee' as [|? ? H2 _]; subst.
        destruct (on_path which (py "vi")); [discriminate|]. auto.
    + intros [Hg [H1 [H2 H3]]]. apply gui_loop_None in Hg.
      rewrite Hg, (Hskip _ _ H1), (Hskip _ _ H2). cbn [env_loop]. rewrite H3. eauto.
Qed.

End EditorProperties.

Lemma gui_editor_first_witness :
  find_editor which_vim_code environ_editor =
    Command [py "code"; py "--new-window"; py "--wait"].
Proof.
  apply (@gui_editor_first which_vim_code environ_editor
           [py "codium"] (py "code") [py "code-insiders"; py "subl"]).
  - reflexivity.
  - repeat constructor.
  - reflexivity.
Defined.

Lemma editor_fallbacks_witness :
  find_editor which_vim environ_editor = Command [py "vim"; py "-u"; py "NONE"].
Proof.
  apply (proj1 (proj2 (proj1 (editor_fallbacks which_vim environ_editor)
                         ltac:(repeat constructor)))); reflexivity.
Defined.

Lemma find_editor_command_on_path_witness :
  exists p0 rest, [py "vim"; py "-u"; py "NONE"] = p0 :: rest /\
                  on_path which_vim p0 = true.
Proof.
  apply (proj2 (find_editor_command_on_path which_vim environ_editor)).
  reflexivity.
Defined.

(* ================================================================== *)
(** * Further properties: the commands on the file system              *)
(* ================================================================== *)

Lemma find_editor_cases (which environ : str -> option str) :
  (exists cmd0, find_editor which environ = Command cmd0) \/
  (exists msg, find_editor which environ = NoEditor msg).
Proof.
  unfold find_editor.
  destruct (gui_loop which _GUI_EDITORS) as [cmd|]; [left; eauto|].
  destruct (env_loop which environ [py "VISUAL"; py "EDITOR"]) as [r|] eqn:Ee.
  - apply env_loop_Some in Ee as [v [p0 [rest [_ [_ [_ ->]]]]]]. left. eauto.
  - destruct (on_path which (py "vi")); [left|right]; eauto.
Qed.

Section CommandProperties.

Variable path : Type.
Variable path_eq_dec : forall p q : path, {p = q} + {p <> q}.
Variable joinpath : path -> str -> path.
Variable Path : str -> path.
Variable path_str : path -> str.
Variable yaml_dump : node -> str.
Variable yaml_safe_load : str -> option node.
Variable which : str -> option str.
Variable environ : str -> option str.
Variable run : list str -> files str path -> files str path * process.
Variable sorted_yaml : path -> files str path -> list path.

Lemma unlink_same (p : path) (fs : files str path) : unlink path_eq_dec p fs p = None.
Proof. unfold unlink. now destruct (path_eq_dec p p). Qed.

Lemma unlink_other (p q : path) (fs : files str path) :
  q <> p -> unlink path_eq_dec p fs q = fs q.
Proof. intro H. unfold unlink. now destruct (path_eq_dec q p). Qed.

Lemma write_text_same (p : path) (t : str) (fs : files str path) :
  write_text path_eq_dec p t fs p = Some t.
Proof. unfold write_text. now destruct (path_eq_dec p p). Qed.

Lemma write_text_other (p q : path) (t : str) (fs : files str path) :
  q <> p -> write_text path_eq_dec p t fs q = fs q.
Proof. intro H. unfold write_text. now destruct (path_eq_dec q p). Qed.

(** X14: [open_editor] returns normally exactly when [find_editor] gives a
    command and the process run with that command followed by the path ends
    with code 0.  When no editor is found, when the process ends with
    another code and when its program is not found, what is raised is a
    [ClickException].  The files are those the process left, and the files
    as they were when no editor is found. *)
Theorem open_editor_outcome (p : path) (fs : files str path) :
  (snd (open_editor path_str which environ run p fs) = None <->
   exists cmd0, find_editor which environ = Command cmd0 /\
                snd (run (cmd0 ++ [path_str p]) fs) = Exit 0) /\
  (forall e, snd (open_editor path_str which environ run p fs) = Some e ->
             exists msg, e = RaisedClick msg) /\
  (forall cmd0, find_editor which environ = Command cmd0 ->
                fst (open_editor path_str which environ run p fs) =
                fst (run (cmd0 ++ [path_str p]) fs)) /\
  (forall msg, find_editor which environ = NoEditor msg ->
               open_editor path_str which environ run p fs =
               (fs, Some (RaisedClick msg))).
Proof.
  unfold open_editor.
  destruct (find_editor_cases which environ) as [[cmd0 E]|[msg E]]; rewrite E.
  - destruct (run (cmd0 ++ [path_str p]) fs) as [fs' [[|rc|rc]|]] eqn:Er; simpl;
      (split; [split; [try discriminate; intros _; exists cmd0; now rewrite Er
                      |intros [c [Hc Hr]]; inversion Hc; subst c;
                       rewrite Er in Hr; simpl in Hr; congruence]|]);
      (split; [intros e He; inversion He; eauto|]);
      (split; [intros c Hc; inversion Hc; subst c; now rewrite Er|discriminate]).
  - simpl. split; [split; [discriminate|intros [c [Hc _]]; discriminate]|].
    split; [intros e He; inversion He; eauto|].
    split; [discriminate|]. intros m Hm. now inversion Hm.
Qed.

(** X15: whatever happens, [item_add] leaves no temporary file: the path of
    the temporary file holds nothing at the end, the path of the saved item
    being another path. *)
Theorem item_add_removes_temporary_file (items_dir : str) (tmp_path : path)
    (fresh_id : str) (fs : files str path) :
  joinpath (Path items_dir) (fresh_id ++ py ".yaml") <> tmp_path ->
  fst (item_add path_eq_dec joinpath Path path_str yaml_dump which environ run
         items_dir tmp_path fresh_id fs) tmp_path = None.
Proof.
  intro Hne. unfold item_add.
  destruct (open_editor path_str which environ run tmp_path _) as [fs2 [e|]];
    [apply unlink_same|].
  destruct (fs2 tmp_path) as [content|]; [|apply unlink_same].
  destruct (parse_template content) as [parsed|exc]; [|apply unlink_same].
  destruct (new_item fresh_id parsed) as [it|] eqn:Ei; [|apply unlink_same].
  apply new_item_Some in Ei as [_ [_ [_ [_ [_ Hid]]]]].
  unfold save_item. simpl. rewrite Hid.
  rewrite write_text_other by (intro E; now apply Hne).
  apply unlink_same.
Qed.

(** X16: when [item_add] raises, whatever it raises, it has saved nothing:
    the files are those the editor left, without the temporary file.  With
    an editor that changes no other file than the temporary one, every
    other path holds what it held before. *)
Theorem item_add_failure_saves_nothing (items_dir : str) (tmp_path : path)
    (fresh_id : str) (fs : files str path) (e : raised) :
  snd (item_add path_eq_dec joinpath Path path_str yaml_dump which environ run
         items_dir tmp_path fresh_id fs) = inr e ->
  fst (item_add path_eq_dec joinpath Path path_str yaml_dump which environ run
         items_dir tmp_path fresh_id fs) =
  unlink path_eq_dec tmp_path
    (fst (open_editor path_str which environ run tmp_path
            (write_text path_eq_dec tmp_path ITEM_TEMPLATE fs))) /\
  ((forall cmd fs0 q, q <> tmp_path -> fst (run cmd fs0) q = fs0 q) ->
   forall q, q <> tmp_path ->
     fst (item_add path_eq_dec joinpath Path path_str yaml_dump which environ run
            items_dir tmp_path fresh_id fs) q = fs q).
Proof.
  intro H.
  assert (E : fst (item_add path_eq_dec joinpath Path path_str yaml_dump which
                     environ run items_dir tmp_path fresh_id fs) =
              unlink path_eq_dec tmp_path
                (fst (open_editor path_str which environ run tmp_path
                        (write_text path_eq_dec tmp_path ITEM_TEMPLATE fs)))).
  { revert H. unfold item_add.
    destruct (open_editor path_str which environ run tmp_path _) as [fs2 [x|]];
      [reflexivity|].
    destruct (fs2 tmp_path) as [content|]; [|reflexivity].
    destruct (parse_template content) as [parsed|exc]; [|reflexivity].
    destruct (new_item fresh_id parsed) as [it|]; [|reflexivity].
    unfold save_item. simpl. discriminate. }
  split; [assumption|].
  intros Hlocal q Hq. rewrite E, unlink_other by assumption.
  destruct (open_editor_outcome tmp_path
              (write_text path_eq_dec tmp_path ITEM_TEMPLATE fs))
    as [_ [_ [Hcmd Hnone]]].
  destruct (find_editor_cases which environ) as [[cmd0 Ec]|[msg Ec]].
  - rewrite (Hcmd _ Ec), Hlocal by assumption. now apply write_text_other.
  - rewrite (Hnone _ Ec). simpl. now apply write_text_other.
Qed.

(** X17: when the editor returns normally and the file it leaves parses to
    a template without courses, [item_add] saves one file, named after the
    new id in the items directory, and echoes its path: the file holds the
    document of the item whose body, criteria and solution are those of
    the template, whose points are the sum of the points of the criteria
    and whose id is the new id.  Apart from the temporary file, no other
    path is changed. *)
Theorem item_add_saves_parsed_item (items_dir : str) (tmp_path : path)
    (fresh_id : str) (fs fs2 : files str path) (content : str)
    (parsed : ParsedTemplate) :
  open_editor path_str which environ run tmp_path
    (write_text path_eq_dec tmp_path ITEM_TEMPLATE fs) = (fs2, None) ->
  fs2 tmp_path = Some content ->
  parse_template content = Ok parsed ->
  courses parsed = [] ->
  let it := {| item_id := fresh_id; item_body := body parsed;
               item_points := sum_points (criteria parsed);
               item_courses := []; item_criteria := criteria parsed;
               item_solution := solution parsed |} in
  let out := joinpath (Path items_dir) (fresh_id ++ py ".yaml") in
  item_add path_eq_dec joinpath Path path_str yaml_dump which environ run
    items_dir tmp_path fresh_id fs =
  (write_text path_eq_dec out (yaml_dump (model_dump it))
     (unlink path_eq_dec tmp_path fs2),
   inl (py "Saved: " ++ path_str out)) /\
  fst (item_add path_eq_dec joinpath Path path_str yaml_dump which environ run
         items_dir tmp_path fresh_id fs) out = Some (yaml_dump (model_dump it)) /\
  (forall q, q <> out -> q <> tmp_path ->
     fst (item_add path_eq_dec joinpath Path path_str yaml_dump which environ run
            items_dir tmp_path fresh_id fs) q = fs2 q).
Proof.
  intros Hed Hread Hparse Hcourses it out.
  assert (E : item_add path_eq_dec joinpath Path path_str yaml_dump which environ
                run items_dir tmp_path fresh_id fs =
              (write_text path_eq_dec out (yaml_dump (model_dump it))
                 (unlink path_eq_dec tmp_path fs2),
               inl (py "Saved: " ++ path_str out))).
  { unfold item_add. rewrite Hed, Hread, Hparse.
    unfold new_item, Item_new. rewrite Hcourses. reflexivity. }
  rewrite E. simpl. split; [reflexivity|]. split; [apply write_text_same|].
  intros q H1 H2. rewrite write_text_other by assumption. now apply unlink_other.
Qed.

Lemma load_each_Some (fresh : path -> str) (ps : list path) (fs : files str path)
    (its : list Item) :
  load_each yaml_safe_load fresh ps fs = Some its <->
  Forall2 (fun p it => load_item yaml_safe_load (fresh p) p fs = Some it) ps its.
Proof.
  revert its; induction ps as [|p ps IH]; intro its; simpl.
  - split; [intro H; inversion H; constructor|intro H; now inversion H].
  - destruct (load_item yaml_safe_load (fresh p) p fs) as [it|] eqn:E.
    + destruct (load_each yaml_safe_load fresh ps fs) as [r|] eqn:Er.
      * split.
        -- intro H. inversion H; subst. constructor; [assumption|now apply IH].
        -- intro H. inversion H as [|? y ? l' Hy Hl]; subst.
           apply IH in Hl. congruence.
      * split; [discriminate|]. intro H. inversion H as [|? y ? l' Hy Hl]; subst.
        apply IH in Hl. discriminate.
    + split; [discriminate|]. intro H. inversion H; congruence.
Qed.

(** X18: [load_all_items] returns the items of the files [*.yaml] of the
    directory, one for each file and in the sorted order of the files, when
    every one of them loads; a single file that does not load makes the
    whole call fail. *)
Theorem load_all_or_nothing (fresh : path -> str) (directory : path)
    (fs : files str path) :
  (forall its,
     load_all_items yaml_safe_load sorted_yaml fresh directory fs = Some its <->
     Forall2 (fun p it => load_item yaml_safe_load (fresh p) p fs = Some it)
             (sorted_yaml directory fs) its) /\
  (forall p, In p (sorted_yaml directory fs) ->
             load_item yaml_safe_load (fresh p) p fs = None ->
             load_all_items yaml_safe_load sorted_yaml fresh directory fs = None).
Proof.
  split; [intro its; apply load_each_Some|].
  intros p Hin Hp. unfold load_all_items.
  destruct (load_each yaml_safe_load fresh (sorted_yaml directory fs) fs)
    as [its|] eqn:E; [|reflexivity].
  apply load_each_Some in E.
  exfalso. clear - E Hin Hp. induction E as [|x y l l' Hxy _ IH]; simpl in Hin.
  - contradiction.
  - destruct Hin as [<-|Hin]; [congruence|auto].
Qed.

End CommandProperties.

Section StoreProperties.

Variable text : Type.
Variable yaml_dump : node -> text.
Variable yaml_safe_load : text -> option node.
Variable path : Type.
Variable path_eq_dec : forall p q : path, {p = q} + {p <> q}.
Variable joinpath : path -> str -> path.

(** X19: saving an item leaves the items saved under other paths as they
    are: an item saved before still loads, from its path, as itself. *)
Theorem save_keeps_other_items (a b : Item) (dir_a dir_b : path)
    (fs : files text path) (fresh_id : str) :
  joinpath dir_b (item_id b ++ py ".yaml") <> joinpath dir_a (item_id a ++ py ".yaml") ->
  yaml_safe_load (yaml_dump (model_dump a)) = Some (model_dump a) ->
  let saved_a := save_item yaml_dump path_eq_dec joinpath a dir_a fs in
  let saved_b := save_item yaml_dump path_eq_dec joinpath b dir_b (snd saved_a) in
  load_item yaml_safe_load fresh_id (fst saved_a) (snd saved_b) = Some a.
Proof.
  intros Hne Hyaml. unfold load_item, save_item, write_text. simpl.
  destruct (path_eq_dec _ _) as [E|_]; [symmetry in E; contradiction|].
  destruct (path_eq_dec _ _) as [_|N]; [|contradiction].
  rewrite Hyaml. apply model_validate_dump.
Qed.

(** X20: ids are not checked against the items already saved: an item saved
    in the same directory with the id of an earlier one takes its file, and
    the path of the earlier item then loads as the later item. *)
Theorem save_same_id_overwrites (a b : Item) (directory : path)
    (fs : files text path) (fresh_id : str) :
  item_id a = item_id b ->
  yaml_safe_load (yaml_dump (model_dump b)) = Some (model_dump b) ->
  let saved_a := save_item yaml_dump path_eq_dec joinpath a directory fs in
  let saved_b := save_item yaml_dump path_eq_dec joinpath b directory (snd saved_a) in
  fst saved_b = fst saved_a /\
  load_item yaml_safe_load fresh_id (fst saved_a) (snd saved_b) = Some b.
Proof.
  intros Hid Hyaml. unfold load_item, save_item, write_text. simpl.
  rewrite Hid. split; [reflexivity|].
  destruct (path_eq_dec _ _) as [_|N]; [|contradiction].
  rewrite Hyaml. apply model_validate_dump.
Qed.

End StoreProperties.

(** X21: the lookup of a difficulty by value is the inverse of the value:
    a string is a difficulty exactly when it is the value of that member.
    The values are lower-case, so the lookup itself accepts no other
    spelling, and two members never share a value. *)
Theorem Difficulty_value_round_trip :
  (forall s d, Difficulty_of_value s = Some d <-> s = Difficulty_value d) /\
  (forall s d, Difficulty_of_value s = Some d -> lower s = s) /\
  (forall d d', Difficulty_value d = Difficulty_value d' -> d = d').
Proof.
  split; [|split].
  - intros s d. split.
    + intro H. symmetry. now apply Difficulty_value_of.
    + intros ->. apply Difficulty_of_value_value.
  - intros s d H. apply Difficulty_value_of in H. subst s. now destruct d.
  - intros d d' H. destruct d, d'; try reflexivity; discriminate.
Qed.

Lemma item_add_removes_temporary_file_witness :
  fst (item_add str_eq_dec slash_join (fun s => s) (fun p => p) dump_any
         which_vim environ_editor (run_writes blank_body_template)
         (py "items") tmp_tex (py "3f9a1c07") one_file) tmp_tex = None.
Proof.
  apply (@item_add_removes_temporary_file str str_eq_dec slash_join (fun s => s)
           (fun p => p) dump_any which_vim environ_editor
           (run_writes blank_body_template) (py "items") tmp_tex (py "3f9a1c07")
           one_file).
  vm_compute. discriminate.
Defined.

Lemma item_add_failure_saves_nothing_witness :
  snd (item_add str_eq_dec slash_join (fun s => s) (fun p => p) dump_any
         which_nothing environ_editor run_keeps
         (py "items") tmp_tex (py "3f9a1c07") one_file) =
    inr (RaisedClick (py "No editor found. Install VS Codium or VS Code, or set the EDITOR or VISUAL environment variable.")) /\
  fst (item_add str_eq_dec slash_join (fun s => s) (fun p => p) dump_any
         which_nothing environ_editor run_keeps
         (py "items") tmp_tex (py "3f9a1c07") one_file)
      (py "items/0a1b2c3d.yaml") = one_file (py "items/0a1b2c3d.yaml").
Proof.
  split; [reflexivity|].
  apply (proj2 (@item_add_failure_saves_nothing str str_eq_dec slash_join
                  (fun s => s) (fun p => p) dump_any which_nothing environ_editor
                  run_keeps (py "items") tmp_tex (py "3f9a1c07") one_file
                  _ eq_refl)).
  - intros cmd fs0 q _. reflexivity.
  - vm_compute. discriminate.
Defined.

Lemma item_add_saves_parsed_item_witness :
  item_add str_eq_dec slash_join (fun s => s) (fun p => p) dump_any
    which_vim environ_editor run_keeps (py "items") tmp_tex (py "3f9a1c07")
    one_file =
  (write_text str_eq_dec (py "items/3f9a1c07.yaml")
     (dump_any (model_dump placeholder_item))
     (unlink str_eq_dec tmp_tex
        (write_text str_eq_dec tmp_tex ITEM_TEMPLATE one_file)),
   inl (py "Saved: items/3f9a1c07.yaml")).
Proof.
  apply (@item_add_saves_parsed_item str str_eq_dec slash_join (fun s => s)
           (fun p => p) dump_any which_vim environ_editor run_keeps
           (py "items") tmp_tex (py "3f9a1c07") one_file
           (write_text str_eq_dec tmp_tex ITEM_TEMPLATE one_file) ITEM_TEMPLATE
           {| body := py "Write your question body here in \LaTeX{}.";
              criteria := []; solution := None; courses := [] |}).
  - reflexivity.
  - apply write_text_same.
  - vm_compute. reflexivity.
  - reflexivity.
Defined.

Lemma save_keeps_other_items_witness :
  load_item (fun t => Some t) (py "00000000")
    (py "items/3f9a1c07.yaml")
    (snd (save_item (fun n => n) str_eq_dec slash_join replacing_item (py "archive")
            (snd (save_item (fun n => n) str_eq_dec slash_join stored_item
                    (py "items") (fun _ => None))))) = Some stored_item.
Proof.
  apply (@save_keeps_other_items node (fun n => n) (fun t => Some t) str
           str_eq_dec slash_join stored_item replacing_item (py "items")
           (py "archive") (fun _ => None) (py "00000000")).
  - vm_compute. discriminate.
  - reflexivity.
Defined.

Lemma save_same_id_overwrites_witness :
  load_item (fun t => Some t) (py "00000000")
    (py "items/3f9a1c07.yaml")
    (snd (save_item (fun n => n) str_eq_dec slash_join replacing_item (py "items")
            (snd (save_item (fun n => n) str_eq_dec slash_join stored_item
                    (py "items") (fun _ => None))))) = Some replacing_item.
Proof.
  apply (@save_same_id_overwrites node (fun n => n) (fun t => Some t) str
           str_eq_dec slash_join stored_item replacing_item (py "items")
           (fun _ => None) (py "00000000")); reflexivity.
Defined.
